(** * TradeBot: the date-range article acquisition engine

    A shallow embedding of the parts of the repository that its
    specification talks about:

    - [crawler]       other/crawler.py   (candidate collection and selection)
    - [GDELT]         other/GDELT.py     (day enumeration, result collection,
                                          checkpoint writes)
    - [textAnalyzer]  result/textAnalyzer.py  (sentiment label of one text)
    - [combine]       result/combine.py       (sentiment label per date)

    Conventions.  A [datetime.date] is its proleptic Gregorian ordinal, an
    integer; a Python [None] is [None] of an option type; a Python dict
    with string keys is a [gmap string _]; calls that leave the program
    (the network, the file system, library parsers) are arguments of the
    functions that make them. *)

From Stdlib Require Import ZArith QArith List String Ascii Bool Lia.
From stdpp Require Import base gmap list strings.
From Equations Require Import Equations.

Local Open Scope string_scope.
Local Open Scope Z_scope.

(** Closes [Forall] goals over explicit lists from the hypotheses. *)
Ltac solve_Forall :=
  repeat first
    [ assumption
    | match goal with
      | |- Forall _ [] => apply List.Forall_nil
      | |- Forall _ (_ :: _) => apply List.Forall_cons
      end ].

(* ===================================================================== *)
(** * other/crawler.py *)
(* ===================================================================== *)

Module crawler.

(** [datetime.date], as the day ordinal ([date.toordinal()]). *)
Definition date := Z.

(** The third component of [get_article_data]'s tuple when it is not
    [None]: newspaper's [publish_date] is a [datetime.datetime]; the code
    also accepts a plain [datetime.date], and ignores anything else. *)
Inductive publish_date : Type :=
| PubDatetime (day : date) (seconds_of_day : Z)
| PubDate (day : date)
| PubOther.

(** A candidate dict [{"url": ..., "candidate_date": ...}]. *)
Record candidate : Type := Candidate {
  url : string;
  candidate_date : option date
}.

#[export] Instance candidate_eq_dec : EqDecision candidate.
Proof. solve_decision. Defined.

(** The tuple [(title, content, publish_date)] of [get_article_data];
    [(None, None, None)] when the download or the parse raised. *)
Record article_data : Type := ArticleData {
  title : option string;
  content : option string;
  pub_date : option publish_date
}.

(** The 4-tuple [choose_best_article] returns:
    [(title, content, url, candidate_date)]. *)
Definition selection : Type :=
  (option string * option string * option string * option date)%type.

(** [return None, None, None, None] *)
Definition absent : selection := (None, None, None, None).

(** Python truthiness of a value that is a [str] or [None]. *)
Definition truthy (s : option string) : bool :=
  match s with
  | None => false
  | Some EmptyString => false
  | Some (String _ _) => true
  end.

(** [diff]: an [int] number of days, or [float("inf")]. *)
Inductive diff : Type :=
| Days (n : Z)
| Inf.

(** [diff == 0] *)
Definition diff_is_zero (d : diff) : bool :=
  match d with
  | Days n => n =? 0
  | Inf => false
  end.

(** [a < b] on ints and [float("inf")]. *)
Definition diff_ltb (a b : diff) : bool :=
  match a, b with
  | Days x, Days y => x <? y
  | Days _, Inf => true
  | Inf, _ => false
  end.

(** [a <= b], used in statements only. *)
Definition diff_leb (a b : diff) : bool :=
  match a, b with
  | Days x, Days y => x <=? y
  | _, Inf => true
  | Inf, Days _ => false
  end.

(** Lines 136-141: the date extracted from the result page if there is
    one, else the date of the fetched [publish_date]. *)
Definition effective_date (c : candidate) (pub : option publish_date)
  : option date :=
  match candidate_date c with
  | Some d => Some d
  | None =>
      match pub with
      | Some (PubDatetime d _) => Some d
      | Some (PubDate d) => Some d
      | Some PubOther => None
      | None => None
      end
  end.

(** Lines 143-146: [abs((candidate_date - target_date).days)] or
    [float("inf")]. *)
Definition date_diff (cd : option date) (target_date : date) : diff :=
  match cd with
  | Some d => Days (Z.abs (d - target_date))
  | None => Inf
  end.

(** Line 133: [if not title or not content: continue]. *)
Definition usable (data : article_data) : bool :=
  truthy (title data) && truthy (content data).

Section Selector.

(** The outside world [get_article_data] talks to: a call may answer
    differently each time, so the world is threaded through the calls. *)
Variable World : Type.
Variable get_article_data : string -> World -> article_data * World.

(** The [for candidate in candidates] loop of [choose_best_article], from
    a given [best_diff] and [best_data].  The result is the returned
    tuple, the world after the last call, and the urls handed to
    [get_article_data] in call order. *)
Fixpoint choose_loop (candidates : list candidate) (target_date : date)
    (best_diff : diff) (best_data : option selection) (w : World)
  : selection * World * list string :=
  match candidates with
  | [] =>
      (match best_data with
       | Some data => data
       | None => absent
       end, w, [])
  | c :: rest =>
      let '(data, w1) := get_article_data (url c) w in
      let '(r, w2, fetched) :=
        if negb (truthy (title data)) || negb (truthy (content data)) then
          choose_loop rest target_date best_diff best_data w1
        else
          let cd := effective_date c (pub_date data) in
          let d := date_diff cd target_date in
          if diff_is_zero d then
            ((title data, content data, Some (url c), cd), w1, [])
          else if diff_ltb d best_diff then
            choose_loop rest target_date d
              (Some (title data, content data, Some (url c), cd)) w1
          else
            choose_loop rest target_date best_diff best_data w1
      in (r, w2, url c :: fetched)
  end.

(** [choose_best_article(candidates, target_date)] *)
Definition choose_best_article (candidates : list candidate)
    (target_date : date) (w : World) : selection * World * list string :=
  choose_loop candidates target_date Inf None w.

(** What each candidate's fetch returns when every candidate of the list
    is fetched in order from [w]: the loop's view of the candidates it
    reaches. *)
Fixpoint responses (candidates : list candidate) (w : World)
  : list (candidate * article_data) :=
  match candidates with
  | [] => []
  | c :: rest =>
      let '(data, w1) := get_article_data (url c) w in
      (c, data) :: responses rest w1
  end.

(** The world after fetching every candidate of the list in order. *)
Fixpoint world_after (candidates : list candidate) (w : World) : World :=
  match candidates with
  | [] => w
  | c :: rest => world_after rest (snd (get_article_data (url c) w))
  end.

End Selector.

(** The distance the loop computes for a fetched candidate. *)
Definition response_diff (target_date : date)
    (r : candidate * article_data) : diff :=
  date_diff (effective_date (fst r) (pub_date (snd r))) target_date.

(** The tuple the loop builds for a fetched candidate. *)
Definition response_selection (target_date : date)
    (r : candidate * article_data) : selection :=
  (title (snd r), content (snd r), Some (url (fst r)),
   effective_date (fst r) (pub_date (snd r))).

(** A usable candidate whose effective date is the target day. *)
Definition exact_match (target_date : date)
    (r : candidate * article_data) : bool :=
  usable (snd r) && diff_is_zero (response_diff target_date r).

(** The loop's update of [(best_diff, best_data)] by one fetched
    candidate that is not an exact match (lines 133-134, 152-154). *)
Definition best_step (target_date : date)
    (best : diff * option selection) (r : candidate * article_data)
  : diff * option selection :=
  if usable (snd r) then
    if diff_ltb (response_diff target_date r) (fst best) then
      (response_diff target_date r, Some (response_selection target_date r))
    else best
  else best.

(** Lines 156-159: what is returned once the list is exhausted. *)
Definition best_final (best : diff * option selection) : selection :=
  match snd best with
  | Some data => data
  | None => absent
  end.

(** ** Candidate collection *)

(** ["T" in s] *)
Fixpoint contains_T (s : string) : bool :=
  match s with
  | EmptyString => false
  | String a rest => Ascii.eqb a "T"%char || contains_T rest
  end.

(** [s.replace("Z", "+00:00")] *)
Fixpoint replace_Z (s : string) : string :=
  match s with
  | EmptyString => EmptyString
  | String a rest =>
      if Ascii.eqb a "Z"%char then ("+00:00" ++ replace_Z rest)%string
      else String a (replace_Z rest)
  end.

(** One [<article>] element of the result page, as the loop reads it:
    the stripped text of its first [<time>] tag and the [href] of its
    first anchor that has one, each [None] when there is no such tag. *)
Record article_tag : Type := ArticleTag {
  time_text : option string;
  anchor_href : option string
}.

Section Candidates.

(** The two library parsers, [None] standing for a raised exception:
    [datetime.datetime.fromisoformat(s).date()] and
    [datetime.datetime.strptime(s, fmt).date()]. *)
Variable fromisoformat : string -> option date.
Variable strptime : string -> string -> option date.

(** [parse_date_from_string(date_str)].  The first [try] rebinds
    [date_str] before the ISO parser can raise, so the later attempts see
    the replaced text. *)
Definition parse_date_from_string (date_str : string) : option date :=
  let has_T := contains_T date_str in
  let date_str1 := if has_T then replace_Z date_str else date_str in
  match (if has_T then fromisoformat date_str1 else None) with
  | Some d => Some d
  | None =>
      match strptime date_str1 "%b %d, %Y" with
      | Some d => Some d
      | None =>
          match strptime date_str1 "%B %d, %Y" with
          | Some d => Some d
          | None => None
          end
      end
  end.

(** Lines 86-89: the date of one [<article>] element. *)
Definition tag_date (article : article_tag) : option date :=
  match time_text article with
  | Some text => parse_date_from_string text
  | None => None
  end.

(** Lines 94-96: a relative link is made absolute. *)
Definition absolute_href (href : string) : string :=
  if String.prefix "./" href then
    ("https://news.google.com" ++ substring 1 (String.length href - 1) href)%string
  else href.

(** Lines 92-97: the candidate dict built from one [<article>] element,
    when it has an anchor with an [href]. *)
Definition tag_candidate (article : article_tag) : option candidate :=
  match anchor_href article with
  | Some href =>
      Some {| url := absolute_href href; candidate_date := tag_date article |}
  | None => None
  end.

(** Lines 98-99: [if candidate not in candidates: candidates.append(...)];
    [in] compares the dicts, url and date. *)
Definition add_candidate (article : article_tag)
    (candidates : list candidate) : list candidate :=
  match tag_candidate article with
  | Some c =>
      if bool_decide (c ∈ candidates) then candidates else candidates ++ [c]
  | None => candidates
  end.

(** The [for article in articles] loop (lines 85-101), with its [break]. *)
Fixpoint collect_loop (articles : list article_tag) (count : Z)
    (candidates : list candidate) : list candidate :=
  match articles with
  | [] => candidates
  | article :: rest =>
      let candidates1 := add_candidate article candidates in
      if Z.of_nat (length candidates1) >=? count then candidates1
      else collect_loop rest count candidates1
  end.

(** [get_candidate_articles(driver, search_url, count)].  [page] is what
    loading the search page gave: [None] when it raised, else the
    [<article>] elements of the page in document order. *)
Definition get_candidate_articles (page : option (list article_tag))
    (count : Z) : list candidate :=
  match page with
  | None => []
  | Some articles => collect_loop articles count []
  end.

End Candidates.

(** The members of a list, each once, in the order of their first
    occurrence (stdpp's [remove_dups] keeps last occurrences). *)
Definition first_seen (l : list candidate) : list candidate :=
  reverse (remove_dups (reverse l)).

(** A returned tuple that stems from a usable fetched candidate with a
    date. *)
Definition dated_selection (known : candidate * article_data -> Prop)
    (r : selection) : Prop :=
  exists c data d,
    known (c, data) /\ usable data = true /\
    effective_date c (pub_date data) = Some d /\
    r = (title data, content data, Some (url c), Some d).

(** ** The search URL *)

(** [urllib.parse.quote(s)] with its default [safe="/"], on the UTF-8
    bytes of [s] (a [string] here is its bytes): letters, digits and
    [_.-~/] stay, any other byte becomes [%XX] in upper-case hex. *)
Definition always_safe (a : ascii) : bool :=
  let n := nat_of_ascii a in
  ((65 <=? n) && (n <=? 90))%nat || ((97 <=? n) && (n <=? 122))%nat
  || ((48 <=? n) && (n <=? 57))%nat
  || (n =? 95)%nat || (n =? 46)%nat || (n =? 45)%nat || (n =? 126)%nat.

Definition hex_digit (n : nat) : ascii :=
  if (n <? 10)%nat then ascii_of_nat (48 + n) else ascii_of_nat (55 + n).

Definition quote_byte (a : ascii) : string :=
  if always_safe a || Ascii.eqb a "/"%char then String a EmptyString
  else
    let n := nat_of_ascii a in
    String "%"%char
      (String (hex_digit (n / 16)) (String (hex_digit (n mod 16)) EmptyString)).

Fixpoint quote (s : string) : string :=
  match s with
  | EmptyString => EmptyString
  | String a rest => (quote_byte a ++ quote rest)%string
  end.

(** The characters [quote] can produce. *)
Definition quoted_char (a : ascii) : bool :=
  always_safe a || Ascii.eqb a "/"%char || Ascii.eqb a "%"%char.

(** The value of a hex digit, and the decoding of what [quote] produced
    (used below to show that [quote] loses nothing). *)
Definition hex_value (a : ascii) : nat :=
  let n := nat_of_ascii a in
  if (n <? 58)%nat then (n - 48)%nat else (n - 55)%nat.

Fixpoint unquote (s : string) : string :=
  match s with
  | EmptyString => EmptyString
  | String a rest =>
      if Ascii.eqb a "%"%char then
        match rest with
        | String h (String l rest2) =>
            String (ascii_of_nat (16 * hex_value h + hex_value l))
              (unquote rest2)
        | _ => String a (unquote rest)
        end
      else String a (unquote rest)
  end.

(** One dict of [main]'s [results]; [result_date] is the day whose
    [isoformat()] is stored under ["date"], [result_publish_date] the
    day stored under ["publish_date"], [None] for [None]. *)
Record scraped : Type := Scraped {
  result_date : date;
  result_search_query : string;
  result_title : option string;
  result_url : option string;
  result_publish_date : option date;
  result_content : option string
}.

(** A dict of [main]'s [results] as the loop builds them: non-empty
    title and content, a url, a publish date, and the day's query. *)
Definition complete_result (strftime_dmy : date -> string) (r : scraped)
  : Prop :=
  truthy (result_title r) = true /\
  truthy (result_content r) = true /\
  is_Some (result_url r) /\
  is_Some (result_publish_date r) /\
  result_search_query r = (strftime_dmy (result_date r) ++ " apple")%string.

Section Main.

Variable World : Type.

(** [d.strftime("%d.%m.%Y")]; the browser loading a search page
    ([driver.get], the wait and [driver.page_source]: [None] when one of
    them raised); the article download; the date parsers. *)
Variable strftime_dmy : date -> string.
Variable load_page : string -> World -> option (list article_tag) * World.
Variable get_article_data : string -> World -> article_data * World.
Variable fromisoformat : string -> option date.
Variable strptime : string -> string -> option date.

(** [get_google_news_url(date, keyword)] *)
Definition get_google_news_url (d : date) (keyword : string)
  : string * string :=
  let date_str := strftime_dmy d in
  let query := (date_str ++ " " ++ keyword)%string in
  let query_encoded := quote query in
  (("https://news.google.com/search?q=" ++ query_encoded
    ++ "&hl=en-US&gl=US&ceid=US:en")%string, query).

(** The body of [main]'s [while] loop (lines 177-210) for one day. *)
Definition day_step (current_date : date) (st : list scraped * World)
  : list scraped * World :=
  let '(results, w) := st in
  let '(search_url, query) := get_google_news_url current_date "apple" in
  let '(page, w1) := load_page search_url w in
  let candidate_list :=
    get_candidate_articles fromisoformat strptime page 6 in
  match candidate_list with
  | [] => (results, w1)
  | _ :: _ =>
      let '(sel, w2, _) :=
        choose_best_article World get_article_data candidate_list
          current_date w1 in
      let '(title, content, selected_url, candidate_date) := sel in
      if truthy content then
        ((results
          ++ [{| result_date := current_date;
                 result_search_query := query;
                 result_title := title;
                 result_url := selected_url;
                 result_publish_date := candidate_date;
                 result_content := content |}])%list, w2)
      else (results, w2)
  end.

(** The [while current_date < end_date] loop of [main]. *)
Equations? main_loop (current_date end_date : date)
    (st : list scraped * World) : list scraped * World
  by wf (Z.to_nat (end_date - current_date)) lt :=
  main_loop current_date end_date st
    with Z_lt_ge_dec current_date end_date => {
    | left _ := main_loop (current_date + 1) end_date (day_step current_date st);
    | right _ := st }.
Proof. lia. Qed.

(** [main()], for the day [today] that [datetime.date.today()] gives:
    the results and the world it leaves. *)
Definition main (today : date) (w : World) : list scraped * World :=
  let end_date := today in
  let start_date := end_date - 7 * 365 in
  main_loop start_date end_date ([], w).

End Main.

End crawler.

(* ===================================================================== *)
(** * other/GDELT.py *)
(* ===================================================================== *)

Module GDELT.

(** An article dict: one row of the search result, [query_date] added. *)
Abbreviation article := (gmap string string).

(** What a reader finds in a file of the working directory: nothing yet
    (the file was opened with mode ["w"], which empties it, and the dump
    has not reached it), or the JSON text of a list of articles. *)
Inductive file_content : Type :=
| Truncated
| Json (articles : list article).

Abbreviation files := (gmap string file_content).

(** The lines [main] and [save_articles] print. *)
Inductive message : Type :=
| Saved (n : nat) (filename : string)
| DayException (day : Z)
| InterruptedByUser
| ErrorOccurred
| Finished.

(** The state [main] works on: its list of results, the files, what it
    printed, and every completed dump (file name and dumped list) in the
    order they were written. *)
Record state : Type := State {
  daily_articles : list article;
  fs : files;
  stdout : list message;
  snapshots : list (string * list article)
}.

(** [open(filename, "w")]: the file exists and is empty. *)
Definition open_w (filename : string) (st : state) : state :=
  {| daily_articles := daily_articles st;
     fs := <[filename := Truncated]> (fs st);
     stdout := stdout st;
     snapshots := snapshots st |}.

(** [json.dump(articles, outfile, indent=4)] and the end of the [with]
    block: the file holds the text of the whole list. *)
Definition json_dump (articles : list article) (filename : string)
    (st : state) : state :=
  {| daily_articles := daily_articles st;
     fs := <[filename := Json articles]> (fs st);
     stdout := stdout st;
     snapshots := snapshots st ++ [(filename, articles)] |}.

(** [print(...)] *)
Definition print (m : message) (st : state) : state :=
  {| daily_articles := daily_articles st;
     fs := fs st;
     stdout := stdout st ++ [m];
     snapshots := snapshots st |}.

(** The default of [save_articles]'s [filename] argument. *)
Definition default_filename : string := "daily_english_articles save.json".

(** The file name [main] passes after each successful day. *)
Definition partial_filename : string := "daily_english_articles_partial.json".

(** [save_articles(articles, filename)] *)
Definition save_articles (articles : list article) (filename : string)
    (st : state) : state :=
  print (Saved (length articles) filename)
    (json_dump articles filename (open_w filename st)).

(** The states of the files a reader can meet while
    [save_articles(articles, filename)] runs, in order. *)
Definition save_articles_trace (articles : list article) (filename : string)
    (st : state) : list files :=
  [fs (open_w filename st);
   fs (json_dump articles filename (open_w filename st))].

(** The [while current_date <= end_date] loop of [main] (lines 107-111). *)
Equations? dates_loop (dates : list Z) (current_date end_date : Z) : list Z
  by wf (Z.to_nat (end_date - current_date + 1)) lt :=
  dates_loop dates current_date end_date
    with Z_le_gt_dec current_date end_date => {
    | left _ := dates_loop (dates ++ [current_date]) (current_date + 1) end_date;
    | right _ := dates }.
Proof. lia. Qed.

(** What [future.result()] gives for one day's task: the value
    [process_day] returned (a dict or [None]), or a raised exception. *)
Inductive day_result : Type :=
| Returned (result : option article)
| Raised.

(** [if result:] on a dict or [None]. *)
Definition truthy (result : option article) : bool :=
  match result with
  | Some a => negb (bool_decide (a = ∅))
  | None => false
  end.

(** An exception that ends the [with] block of [main]. *)
Inductive exn : Type :=
| KeyboardInterrupt
| OtherException.

(** What [main] does not decide: the result of each day's task, the order
    in which [as_completed] yields the submitted futures (each future is
    named by its day), and the exception, if any, raised in the main
    thread while it waits for the next future, with the number of futures
    handled before it. *)
Record environment : Type := Environment {
  future_result : Z -> day_result;
  as_completed : list Z -> list Z;
  raised : option (nat * exn)
}.

(** The body of the [for future in as_completed(...)] loop
    (lines 123-134).  The dump to the partial file is taken to succeed
    (an exception in it would be caught and printed like a failed day). *)
Definition handle (env : environment) (st : state) (day : Z) : state :=
  match future_result env day with
  | Returned result =>
      if truthy result then
        match result with
        | Some a =>
            let st1 :=
              {| daily_articles := daily_articles st ++ [a];
                 fs := fs st;
                 stdout := stdout st;
                 snapshots := snapshots st |} in
            save_articles (daily_articles st1) partial_filename st1
        | None => st
        end
      else st
  | Raised => print (DayException day) st
  end.

(** The futures the loop handles before the [with] block ends.  All tasks
    were submitted before the loop started; what the worker threads still
    do after an exception is not part of this model. *)
Definition handled (env : environment) (submitted : list Z) : list Z :=
  match raised env with
  | None => as_completed env submitted
  | Some (n, _) => take n (as_completed env submitted)
  end.

(** The [try] block of [main] (lines 116-134). *)
Definition try_block (env : environment) (submitted : list Z) (st : state)
  : state :=
  fold_left (handle env) (handled env submitted) st.

(** The [except] clauses of [main] (lines 135-138): the state after the
    handler, and the exception still pending after them. *)
Definition except_clauses (env : environment) (st : state)
  : state * option exn :=
  match raised env with
  | None => (st, None)
  | Some (_, KeyboardInterrupt) => (print InterruptedByUser st, None)
  | Some (_, OtherException) => (print ErrorOccurred st, None)
  end.

(** The [finally] clause of [main] (lines 139-142). *)
Definition finally_clause (st : state) : state :=
  print Finished (save_articles (daily_articles st) default_filename st).

(** The state when [main] enters its [try]: [daily_articles = []]. *)
Definition initial_state (fs0 : files) : state :=
  {| daily_articles := []; fs := fs0; stdout := []; snapshots := [] |}.

(** What a run of the script leaves behind. *)
Record outcome : Type := Outcome {
  submitted : list Z;
  final : state;
  exit_status : Z
}.

(** [main()], for a date range [start_date .. end_date] (two literals in
    the source) and the files [fs0] found at start.  [submitted] lists the
    days passed to [executor.submit(process_day, day)], in order.  The
    script ends after [main()]: its exit status is 0 unless an exception
    is still pending. *)
Definition main (start_date end_date : Z) (env : environment) (fs0 : files)
  : outcome :=
  let dates := dates_loop [] start_date end_date in
  let st1 := try_block env dates (initial_state fs0) in
  let '(st2, pending) := except_clauses env st1 in
  let st3 := finally_clause st2 in
  {| submitted := dates;
     final := st3;
     exit_status := match pending with None => 0 | Some _ => 1 end |}.

(** What holds of the state all along the [try] block, for the files
    [fs0] found at start: the [i]-th dump so far went to the partial file
    and holds the first [i+1] results, the partial file holds the last
    of these dumps, and no other file was touched. *)
Definition checkpointed (fs0 : files) (st : state) : Prop :=
  snapshots st
  = imap (fun i _ => (partial_filename, take (S i) (daily_articles st)))
      (daily_articles st) /\
  fs st !! partial_filename
  = match daily_articles st with
    | [] => fs0 !! partial_filename
    | _ :: _ => Some (Json (daily_articles st))
    end /\
  delete partial_filename (fs st) = delete partial_filename fs0.

(** ** One day's task *)

(** The arguments of gdeltdoc's [Filters(...)]. *)
Record Filters : Type := MkFilters {
  filter_keyword : string;
  filter_start_date : string;
  filter_end_date : string;
  filter_country : string
}.

(** What [gd.article_search(f)] gives: an exception, or the rows of the
    returned DataFrame in order, each row as the dict [to_dict()] makes
    of it. *)
Inductive search_outcome : Type :=
| SearchRaised
| SearchRows (rows : list article).

Section Day.

(** [d.strftime("%Y-%m-%d")] and the search of the GDELT service. *)
Variable strftime : Z -> string.
Variable article_search : Filters -> search_outcome.

(** Lines 55-64: the filters of one day. *)
Definition day_filters (current_date : Z) : Filters :=
  {| filter_keyword := "apple";
     filter_start_date := strftime current_date;
     filter_end_date := strftime (current_date + 1);
     filter_country := "US" |}.

(** Lines 84-87: [article.get("language") == "English"]. *)
Definition is_english (a : article) : bool :=
  bool_decide (a !! "language" = Some "English").

(** [process_day(current_date)] *)
Definition process_day (current_date : Z) : option article :=
  let day_str := strftime current_date in
  match article_search (day_filters current_date) with
  | SearchRaised => None
  | SearchRows articles =>
      let found_article :=
        match articles with
        | [] => None
        | _ :: _ => List.find is_english articles
        end in
      match found_article with
      | Some a =>
          if bool_decide (a = ∅) then None
          else Some (<["query_date" := day_str]> a)
      | None => None
      end
  end.

(** The environment of a run whose tasks are [process_day]. *)
Definition pool_environment (as_completed : list Z -> list Z)
    (raised : option (nat * exn)) : environment :=
  {| future_result := fun day => Returned (process_day day);
     as_completed := as_completed;
     raised := raised |}.

End Day.

(** What one turn of the loop appends to [daily_articles] for a day. *)
Definition appended (env : environment) (day : Z) : option article :=
  match future_result env day with
  | Returned result => if truthy result then result else None
  | Raised => None
  end.

(** A run in which the [KeyboardInterrupt] is raised inside
    [save_articles], in the turn for [day] after the turns for [before]:
    the result was appended and [open] has emptied the partial file, but
    [json.dump] has written nothing yet; then the handler and the
    [finally] clause run.  [None] when the turn for [day] has no result
    and so makes no dump. *)
Definition interrupted_in_dump (env : environment) (before : list Z)
    (day : Z) (fs0 : files) : option state :=
  match appended env day with
  | Some a =>
      let st := fold_left (handle env) before (initial_state fs0) in
      let st1 :=
        {| daily_articles := daily_articles st ++ [a];
           fs := fs st;
           stdout := stdout st;
           snapshots := snapshots st |} in
      Some (finally_clause
              (print InterruptedByUser (open_w partial_filename st1)))
  | None => None
  end.

End GDELT.

(* ===================================================================== *)
(** * result/textAnalyzer.py and result/combine.py *)
(* ===================================================================== *)

(** A Python float that is finite is a rational number, and the order of
    floats is the order of their values.  The literal [0.01] denotes the
    float nearest to 1/100, and no float lies between the two, so on
    floats [x >= 0.01] is [1/100 <= x]; [-0.00] is zero. *)

Module textAnalyzer.

(** The dict [polarity_scores] returns. *)
Record scores : Type := Scores {
  neg : Q;
  neu : Q;
  pos : Q;
  compound : Q
}.

Section Analyze.

(** [clean_text] only prepares the text for the analyzer, and VADER's
    [SentimentIntensityAnalyzer().polarity_scores] is a library: the
    label depends on them through the compound score alone. *)
Variable clean_text : string -> string.
Variable polarity_scores : string -> scores.

(** [analyze_sentiment(text)] *)
Definition analyze_sentiment (text : string) : string * scores :=
  let cleaned := clean_text text in
  let scores := polarity_scores cleaned in
  let compound := compound scores in
  let sentiment :=
    if Qle_bool (1 # 100) compound then "Positive"
    else if Qle_bool compound (- 0) then "Negative"
    else "Neutral" in
  (sentiment, scores).

End Analyze.

(** ** Annotating the loaded articles *)

(** A value of an article dict, as far as [add_sentiment_to_articles]
    tells values apart: a string, a dict of scores, or any other JSON
    value with its truthiness ([null], numbers, lists, ...). *)
Inductive value : Type :=
| VText (s : string)
| VScores (sc : scores)
| VOther (is_true : bool).

(** Python truthiness of a value; a dict of scores has four keys. *)
Definition value_truthy (v : value) : bool :=
  match v with
  | VText EmptyString => false
  | VText (String _ _) => true
  | VScores _ => true
  | VOther b => b
  end.

(** [article.get("content") or article.get("title", "")] *)
Definition article_text_value (a : gmap string value) : value :=
  let title := default (VText "") (a !! "title") in
  match a !! "content" with
  | Some v => if value_truthy v then v else title
  | None => title
  end.

Section Annotate.

Variable clean_text : string -> string.
Variable polarity_scores : string -> scores.

(** The body of the loop of [add_sentiment_to_articles]; [None] when
    the text is not a string, on which [clean_text] raises. *)
Definition add_sentiment (a : gmap string value)
  : option (gmap string value) :=
  match article_text_value a with
  | VText text =>
      let '(sentiment, scores) :=
        analyze_sentiment clean_text polarity_scores text in
      Some (<["sentiment_scores" := VScores scores]>
              (<["sentiment" := VText sentiment]> a))
  | _ => None
  end.

(** [add_sentiment_to_articles(data)]; [None] when it raises. *)
Fixpoint add_sentiment_to_articles (data : list (gmap string value))
  : option (list (gmap string value)) :=
  match data with
  | [] => Some []
  | a :: rest =>
      match add_sentiment a with
      | None => None
      | Some a' =>
          match add_sentiment_to_articles rest with
          | None => None
          | Some rest' => Some (a' :: rest')
          end
      end
  end.

End Annotate.

(** ** Cleaning a text *)

(** For [clean_text] a Python [str] is the list of its code points: the
    function counts characters and splits on characters outside ASCII. *)
Abbreviation pystr := (list N).

(** The code points of a string that is plain ASCII. *)
Definition codepoints (s : string) : pystr :=
  map N_of_ascii (list_ascii_of_string s).

(** The characters [str.splitlines] breaks lines at. *)
Definition is_linebreak (c : N) : bool :=
  ((10 <=? c) && (c <=? 13) || (28 <=? c) && (c <=? 30)
   || (c =? 133) || (c =? 8232) || (c =? 8233))%N.

(** The characters [str.strip] removes. *)
Definition is_space (c : N) : bool :=
  ((9 <=? c) && (c <=? 13) || (28 <=? c) && (c <=? 32)
   || (c =? 133) || (c =? 160) || (c =? 5760)
   || (8192 <=? c) && (c <=? 8202)
   || (c =? 8232) || (c =? 8233) || (c =? 8239) || (c =? 8287)
   || (c =? 12288))%N.

(** [str.splitlines()]: [cur] is the line being read.  A carriage
    return followed by a line feed is one break; a text that ends in a
    break has no empty last line. *)
Fixpoint splitlines_from (cur s : pystr) : list pystr :=
  match s with
  | [] => match cur with [] => [] | _ :: _ => [cur] end
  | c :: rest =>
      if is_linebreak c then
        match rest with
        | c2 :: rest2 =>
            if ((c =? 13) && (c2 =? 10))%N then cur :: splitlines_from [] rest2
            else cur :: splitlines_from [] rest
        | [] => cur :: splitlines_from [] rest
        end
      else splitlines_from (cur ++ [c]) rest
  end.

Definition splitlines (s : pystr) : list pystr := splitlines_from [] s.

(** [str.strip()] *)
Fixpoint lstrip (s : pystr) : pystr :=
  match s with
  | [] => []
  | c :: rest => if is_space c then lstrip rest else s
  end.

Definition strip (s : pystr) : pystr := rev (lstrip (rev (lstrip s))).

(** [phrase in line] *)
Fixpoint starts_with (phrase line : pystr) : bool :=
  match phrase, line with
  | [], _ => true
  | _ :: _, [] => false
  | p :: phrase', c :: line' => (p =? c)%N && starts_with phrase' line'
  end.

Fixpoint contains (phrase line : pystr) : bool :=
  starts_with phrase line
  || match line with
     | [] => false
     | _ :: line' => contains phrase line'
     end.

(** ["\n".join(lines)] *)
Fixpoint join_lines (lines : list pystr) : pystr :=
  match lines with
  | [] => []
  | [line] => line
  | line :: rest => line ++ 10%N :: join_lines rest
  end.

(** The list [ad_phrases]; the apostrophe of the fourth is U+2019. *)
Definition ad_phrases : list pystr :=
  [codepoints "unlock stock picks";
   codepoints "broker-level newsfeed";
   codepoints "upgrade now";
   (codepoints "don" ++ 8217%N :: codepoints "t miss the move")%list;
   codepoints "sign up";
   codepoints "free daily newsletter";
   codepoints "try now>>";
   codepoints "read more on";
   codepoints "view comments"].

(** A text that [strip] leaves alone: empty, or with a first and a last
    character that are not spaces. *)
Definition stripped (s : pystr) : Prop :=
  s = [] \/
  (exists c rest, s = c :: rest /\ is_space c = false) /\
  (exists front c, s = (front ++ [c])%list /\ is_space c = false).

Section Clean.

(** [str.lower] *)
Variable lower : pystr -> pystr.

(** The body of the loop of [clean_text]: the stripped line if it is
    kept. *)
Definition keep_line (line : pystr) : option pystr :=
  let line_stripped := strip line in
  if (length line_stripped <? 20)%nat then None
  else
    let line_lower := lower line_stripped in
    if existsb (fun phrase => contains phrase line_lower) ad_phrases then None
    else Some line_stripped.

(** [clean_text(text)] *)
Definition clean_text (t : pystr) : pystr :=
  let lines := splitlines t in
  let cleaned_lines := omap keep_line lines in
  join_lines cleaned_lines.

End Clean.

End textAnalyzer.

Module combine.

(** One article of the JSON file, as [aggregate_sentiments] reads it:
    the values under ["query_date"] and ["seendate"] ([None]: no such
    key) and under ["sentiment_scores"]["compound"] ([None]: missing or
    null). *)
Record article : Type := Article {
  query_date : option string;
  seendate : option string;
  compound : option Q
}.

(** The value [aggregate_sentiments] stores per date. *)
Record entry : Type := Entry {
  avg_compound : Q;
  sentiment : string
}.

Section Aggregate.

(** [str.strip] and [statistics.mean]. *)
Variable strip : string -> string.
Variable mean : list Q -> Q.

(** Lines 26-29: the key an article is filed under. *)
Definition date_key (a : article) : string :=
  let key := strip (default "" (query_date a)) in
  match key with
  | EmptyString => substring 0 10 (default "" (seendate a))
  | String _ _ => key
  end.

(** Lines 24-33: the first loop. *)
Definition group_by_date (articles : list article) : gmap string (list Q) :=
  fold_left
    (fun by_date a =>
       match compound a with
       | None => by_date
       | Some c =>
           <[date_key a := (default [] (by_date !! date_key a) ++ [c])%list]> by_date
       end)
    articles ∅.

(** Lines 37-44: the entry of one date. *)
Definition aggregate_entry (compounds : list Q) : entry :=
  let avg_compound := mean compounds in
  let sentiment :=
    if Qle_bool (1 # 100) avg_compound then "Positive"
    else if Qle_bool avg_compound (- 0) then "Negative"
    else "Neutral" in
  {| avg_compound := avg_compound; sentiment := sentiment |}.

(** [aggregate_sentiments], from the articles [json.load] returned. *)
Definition aggregate_sentiments (articles : list article)
  : gmap string entry :=
  aggregate_entry <$> group_by_date articles.

End Aggregate.

(** ** Merging into the price table *)

(** A value handed to the CSV writer: a string, a float (the average
    score), or [None], which is written as an empty field. *)
Inductive cell : Type :=
| Text (s : string)
| Float (q : Q)
| Blank.

(** A row as [csv.DictReader] yields it.  [cells] has the value under
    each column name of the header, [None] for a column the line was too
    short to fill; [surplus] tells that the line was too long, in which
    case the dict has the further values under the key [None]. *)
Record csv_row : Type := CsvRow {
  cells : gmap string (option string);
  surplus : bool
}.

Definition read_cell (v : option string) : cell :=
  match v with
  | Some s => Text s
  | None => Blank
  end.

Definition news_columns : list string := ["News_Sentiment"; "News_Compound"].

(** Lines 70-75: the two news columns set in a row dict, for the row's
    [date_str]. *)
Definition with_news (sentiments : gmap string entry) (date_str : string)
    (row : gmap string cell) : gmap string cell :=
  let date_key := substring 0 10 date_str in
  match sentiments !! date_key with
  | Some e =>
      <["News_Compound" := Float (avg_compound e)]>
        (<["News_Sentiment" := Text (sentiment e)]> row)
  | None =>
      <["News_Compound" := Text ""]> (<["News_Sentiment" := Text ""]> row)
  end.

(** Lines 68-76 for one row: the row dict with the news columns set,
    still with its surplus.  [row.get("Date", "")] is [""] without such a
    column and [None] when the line was too short for it; slicing [None]
    raises: [None] here. *)
Definition merge_row (sentiments : gmap string entry) (row : csv_row)
  : option (gmap string cell * bool) :=
  match default (Some "") (cells row !! "Date") with
  | None => None
  | Some date_str =>
      Some (with_news sentiments date_str (read_cell <$> cells row),
            surplus row)
  end.

(** [csv.DictWriter] raises on a row dict with a key that is not one of
    its field names; the key [None] of a surplus never is. *)
Definition writable (fieldnames : list string)
    (merged : gmap string cell * bool) : bool :=
  negb (snd merged)
  && bool_decide (map_Forall (fun k _ => k ∈ fieldnames) (fst merged)).

(** [merge_sentiments_to_csv], from what [csv.DictReader] reads (the
    header, [None] for an empty file, and the rows) to the header and
    rows [csv.DictWriter] writes; [None] when it raises: on adding a list
    to the missing header, on a row too short for its [Date], or in the
    writer. *)
Definition merge_sentiments_to_csv
    (fieldnames : option (list string)) (rows : list csv_row)
    (sentiments : gmap string entry)
  : option (list string * list (gmap string cell)) :=
  match fieldnames with
  | None => None
  | Some names =>
      let fieldnames1 := (names ++ news_columns)%list in
      match mapM (merge_row sentiments) rows with
      | None => None
      | Some merged_rows =>
          if forallb (writable fieldnames1) merged_rows then
            Some (fieldnames1, map fst merged_rows)
          else None
      end
  end.

(** The text under a row's [Date], [""] without such a column. *)
Definition row_date (row : csv_row) : string :=
  match cells row !! "Date" with
  | Some (Some date_str) => date_str
  | _ => ""
  end.

(** A row that [merge_sentiments_to_csv] gets through: long enough for
    its [Date], not too long, and with no key outside the written
    header. *)
Definition well_read (names : list string) (row : csv_row) : Prop :=
  cells row !! "Date" <> Some None /\
  surplus row = false /\
  map_Forall (fun k _ => k ∈ (names ++ news_columns)%list) (cells row).

Section Pipeline.

Variable strip : string -> string.
Variable mean : list Q -> Q.

(** The scores of the articles filed under one date, in file order. *)
Definition compounds_of (key : string) (articles : list article) : list Q :=
  omap (fun a => if bool_decide (date_key strip a = key) then compound a
                 else None) articles.

(** [main], from the loaded articles and price table to the written
    table. *)
Definition main (articles : list article)
    (fieldnames : option (list string)) (rows : list csv_row)
  : option (list string * list (gmap string cell)) :=
  let aggregated_sentiments := aggregate_sentiments strip mean articles in
  merge_sentiments_to_csv fieldnames rows aggregated_sentiments.

End Pipeline.

End combine.

(* ===================================================================== *)
(** * Concrete runs *)
(* ===================================================================== *)

(** Inputs on which the functions above are run in the examples below.
    2024-01-01 is day 738886. *)

Module scenario.

Import crawler.

(** A fetcher that answers from a table of pages and counts its calls;
    a url outside the table is a failed download. *)
Fixpoint table_fetch (table : list (string * article_data)) (u : string)
    (calls : nat) : article_data * nat :=
  match table with
  | [] => (ArticleData None None None, S calls)
  | (k, data) :: rest =>
      if String.eqb k u then (data, S calls) else table_fetch rest u calls
  end.

Definition target : date := 738886.

(** One page with a title and a text, no date anywhere. *)
Definition dateless_pages : list (string * article_data) :=
  [("https://example.com/a",
    ArticleData (Some "Apple unveils") (Some "Apple said today") None)].

Definition dateless_candidates : list candidate :=
  [Candidate "https://example.com/a" None].

(** The second candidate is dated on the target day by its fetched
    [publish_date]; the first is two days off, the third would be a day
    off. *)
Definition exact_pages : list (string * article_data) :=
  [("https://example.com/a",
    ArticleData (Some "Two days late") (Some "text a") None);
   ("https://example.com/b",
    ArticleData (Some "On the day") (Some "text b")
      (Some (PubDatetime 738886 3600)));
   ("https://example.com/c",
    ArticleData (Some "A day early") (Some "text c") None)].

Definition exact_candidates : list candidate :=
  [Candidate "https://example.com/a" (Some 738888);
   Candidate "https://example.com/b" None;
   Candidate "https://example.com/c" (Some 738885)].

(** A hundred days before the target, two days after it, two days
    before it, a failed download dated on the target day, and a page
    without a date. *)
Definition nearest_pages : list (string * article_data) :=
  [("https://example.com/v",
    ArticleData (Some "Long before") (Some "text v") None);
   ("https://example.com/w",
    ArticleData (Some "Two after") (Some "text w") None);
   ("https://example.com/x",
    ArticleData (Some "Two before") (Some "text x") (Some (PubDate 738884)));
   ("https://example.com/z",
    ArticleData (Some "No date") (Some "text z") None)].

Definition nearest_candidates : list candidate :=
  [Candidate "https://example.com/v" (Some 738786);
   Candidate "https://example.com/w" (Some 738888);
   Candidate "https://example.com/x" None;
   Candidate "https://example.com/y" (Some 738886);
   Candidate "https://example.com/z" None].

(** A result page with two [<article>] elements that link to the same
    story and show different days. *)
Definition twin_page : list article_tag :=
  [ArticleTag (Some "Mar 12, 2018") (Some "./articles/abc");
   ArticleTag (Some "Mar 13, 2018") (Some "./articles/abc")].

(** What the library parsers answer on the two texts of [twin_page]
    (2018-03-12 is day 736765).  Neither text has a ["T"], so the ISO
    parser is not called. *)
Definition fromisoformat_unused (s : string) : option date := None.

Definition strptime_twin (s fmt : string) : option date :=
  if String.eqb fmt "%b %d, %Y" then
    if String.eqb s "Mar 12, 2018" then Some 736765
    else if String.eqb s "Mar 13, 2018" then Some 736766
    else None
  else None.

Definition twin_pages : list (string * article_data) :=
  [("https://news.google.com/articles/abc",
    ArticleData (Some "A story") (Some "its text") None)].

(** Three days, 2024-01-01 to 2024-01-03: the first two have an
    article, the third has none; the futures complete in reverse order. *)
Definition first_article : gmap string string :=
  {[ "url" := "https://example.com/1"; "language" := "English";
     "query_date" := "2024-01-01" ]}.

Definition second_article : gmap string string :=
  {[ "url" := "https://example.com/2"; "language" := "English";
     "query_date" := "2024-01-02" ]}.

Definition three_days (day : Z) : GDELT.day_result :=
  if day =? 738886 then GDELT.Returned (Some first_article)
  else if day =? 738887 then GDELT.Returned (Some second_article)
  else GDELT.Returned None.

Definition completed_run : GDELT.environment :=
  GDELT.Environment three_days reverse None.

(** The same run, interrupted after the first two futures were handled. *)
Definition interrupted_run : GDELT.environment :=
  GDELT.Environment three_days reverse (Some (2%nat, GDELT.KeyboardInterrupt)).

(** Texts for the analyzer.  VADER scores a text without any word of its
    lexicon as [neu = 1.0], [compound = 0.0]; the second score is a
    faintly negative one, [compound = -0.005]. *)
Definition no_sentiment_scores (cleaned : string) : textAnalyzer.scores :=
  textAnalyzer.Scores 0 1 0 0.

Definition faintly_negative_scores (cleaned : string) : textAnalyzer.scores :=
  textAnalyzer.Scores (1 # 100) (99 # 100) 0 (- (5 # 1000)).

Definition keep_text (text : string) : string := text.

(** The mean of a list of scores, without rounding. *)
Definition exact_mean (compounds : list Q) : Q :=
  (fold_right Qplus 0 compounds / inject_Z (Z.of_nat (length compounds)))%Q.

(** Two articles of one day, both scored 0.0. *)
Definition flat_day : list combine.article :=
  [combine.Article (Some "2019-04-15") (Some "20190415T120000Z") (Some 0%Q);
   combine.Article (Some "2019-04-15") None (Some 0%Q)].

(** A GDELT service for the same three days: on the first a German row
    comes before two English ones, on the second the search raises, on
    the third it finds nothing.  [iso_day] is what [strftime] gives on
    these days. *)
Definition iso_day (d : Z) : string :=
  if d =? 738886 then "2024-01-01"
  else if d =? 738887 then "2024-01-02"
  else if d =? 738888 then "2024-01-03"
  else "2024-01-04".

Definition german_row : gmap string string :=
  {[ "url" := "https://example.de/0"; "language" := "German" ]}.

Definition english_row : gmap string string :=
  {[ "url" := "https://example.com/1"; "language" := "English" ]}.

Definition later_english_row : gmap string string :=
  {[ "url" := "https://example.com/2"; "language" := "English" ]}.

Definition gdelt_service (f : GDELT.Filters) : GDELT.search_outcome :=
  if String.eqb (GDELT.filter_start_date f) "2024-01-01" then
    GDELT.SearchRows [german_row; english_row; later_english_row]
  else if String.eqb (GDELT.filter_start_date f) "2024-01-02" then
    GDELT.SearchRaised
  else GDELT.SearchRows [].

(** What [strftime("%d.%m.%Y")] gives on 2018-03-11 (day 736764) and on
    the day after. *)
Definition dmy_day (d : Z) : string :=
  if d =? 736764 then "11.03.2018" else "12.03.2018".

(** Two loaded articles, the second with an empty content, and an
    analyzer that knows one text. *)
Definition word_scores (cleaned : string) : textAnalyzer.scores :=
  if String.eqb cleaned "Great results" then
    textAnalyzer.Scores 0 (1 # 2) (1 # 2) (4404 # 10000)
  else textAnalyzer.Scores 0 1 0 0.

Definition loaded_articles : list (gmap string textAnalyzer.value) :=
  [ {[ "content" := textAnalyzer.VText "Great results";
       "title" := textAnalyzer.VText "Quarter" ]};
    {[ "content" := textAnalyzer.VText "";
       "title" := textAnalyzer.VText "The meeting is on Tuesday" ]} ].

Definition annotated_articles : list (gmap string textAnalyzer.value) :=
  [ {[ "content" := textAnalyzer.VText "Great results";
       "title" := textAnalyzer.VText "Quarter";
       "sentiment" := textAnalyzer.VText "Positive";
       "sentiment_scores" :=
         textAnalyzer.VScores
           (textAnalyzer.Scores 0 (1 # 2) (1 # 2) (4404 # 10000)) ]};
    {[ "content" := textAnalyzer.VText "";
       "title" := textAnalyzer.VText "The meeting is on Tuesday";
       "sentiment" := textAnalyzer.VText "Negative";
       "sentiment_scores" :=
         textAnalyzer.VScores (textAnalyzer.Scores 0 1 0 0) ]} ].

(** [str.lower] on a text that is plain ASCII. *)
Definition ascii_lower (s : list N) : list N :=
  map (fun c => if ((65 <=? c) && (c <=? 90))%N then (c + 32)%N else c) s.

(** A text of four lines: a sentence, an ad between spaces, a short
    line, a sentence after a Windows line end. *)
Definition page_text : list N :=
  (textAnalyzer.codepoints "Apple shares rose sharply on Monday."
   ++ [10%N]
   ++ textAnalyzer.codepoints "   Sign up for our free daily newsletter   "
   ++ [10%N]
   ++ textAnalyzer.codepoints "Read more"
   ++ [13%N; 10%N]
   ++ textAnalyzer.codepoints "The company reported record revenue. ")%list.

(** A price table with the header [Date,Close]: a row of the day of
    [flat_day] and a row of the day after, for which there is no
    article. *)
Definition price_header : list string := ["Date"; "Close"].

Definition price_row (date_str close : option string) (surplus : bool)
  : combine.csv_row :=
  combine.CsvRow {[ "Date" := date_str; "Close" := close ]} surplus.

Definition price_rows : list combine.csv_row :=
  [price_row (Some "2019-04-15 00:00:00-04:00") (Some "199.23") false;
   price_row (Some "2019-04-16 00:00:00-04:00") (Some "199.25") false].

(** A table with the header [Close,Date] whose second line, [199.25],
    has no second field, and one with the header [Date,Close] whose
    second line, [2019-04-16,199.25,0], has a third. *)
Definition short_rows : list combine.csv_row :=
  [price_row (Some "2019-04-15") (Some "199.23") false;
   price_row None (Some "199.25") false].

Definition long_rows : list combine.csv_row :=
  [price_row (Some "2019-04-15") (Some "199.23") false;
   price_row (Some "2019-04-16") (Some "199.25") true].

(** A line of the [Date,Close] table with one field only: the row is
    long enough for its [Date]. *)
Definition dated_only_rows : list combine.csv_row :=
  [price_row (Some "2019-04-15") None false].

End scenario.

(* ===================================================================== *)
(** * Properties of the candidate selector *)
(* ===================================================================== *)

Section SelectorFacts.

Import crawler.

Variable World : Type.
Variable get_article_data : string -> World -> article_data * World.

Local Abbreviation choose_loop := (choose_loop World get_article_data).
Local Abbreviation choose_best_article := (choose_best_article World get_article_data).
Local Abbreviation responses := (responses World get_article_data).
Local Abbreviation world_after := (world_after World get_article_data).

Lemma responses_cons c rest w :
  responses (c :: rest) w =
  (c, fst (get_article_data (url c) w))
    :: responses rest (snd (get_article_data (url c) w)).
Proof. simpl. destruct (get_article_data (url c) w); reflexivity. Qed.

Lemma responses_app pre post w :
  responses (pre ++ post) w =
  (responses pre w ++ responses post (world_after pre w))%list.
Proof.
  revert w. induction pre as [|c pre IH]; intros w; [reflexivity|].
  rewrite <- app_comm_cons, !responses_cons, IH. reflexivity.
Qed.

Lemma world_after_app pre post w :
  world_after (pre ++ post) w = world_after post (world_after pre w).
Proof.
  revert w. induction pre as [|c pre IH]; intros w; [reflexivity|].
  simpl. apply IH.
Qed.

Lemma usable_negb data :
  negb (truthy (title data)) || negb (truthy (content data))
  = negb (usable data).
Proof. unfold usable. destruct (truthy _), (truthy _); reflexivity. Qed.

(** One turn of the loop on a candidate that is not an exact match. *)
Lemma choose_loop_skip c rest target bd bdata w :
  exact_match target (c, fst (get_article_data (url c) w)) = false ->
  choose_loop (c :: rest) target bd bdata w =
  let best := best_step target (bd, bdata)
                (c, fst (get_article_data (url c) w)) in
  let '(r, w2, fetched) :=
    choose_loop rest target (fst best) (snd best)
      (snd (get_article_data (url c) w)) in
  (r, w2, url c :: fetched).
Proof.
  intros Hne. cbn [crawler.choose_loop]. unfold exact_match, best_step, response_diff,
    response_selection in *.
  destruct (get_article_data (url c) w) as [data w1]. cbn [fst snd] in *.
  rewrite usable_negb.
  destruct (usable data); cbn [negb andb] in *; [|reflexivity].
  rewrite Hne.
  destruct (diff_ltb _ bd); reflexivity.
Qed.

(** One turn of the loop on an exact match. *)
Lemma choose_loop_hit c rest target bd bdata w :
  exact_match target (c, fst (get_article_data (url c) w)) = true ->
  choose_loop (c :: rest) target bd bdata w =
  (response_selection target (c, fst (get_article_data (url c) w)),
   snd (get_article_data (url c) w), [url c]).
Proof.
  intros Hex. cbn [crawler.choose_loop]. unfold exact_match, response_diff,
    response_selection in *.
  destruct (get_article_data (url c) w) as [data w1]. cbn [fst snd] in *.
  rewrite usable_negb.
  apply andb_prop in Hex as [Hu Hz]. rewrite Hu, Hz. reflexivity.
Qed.

(** With no exact match among the candidates, the loop fetches every one
    of them and returns what the fold of [best_step] leaves. *)
Lemma choose_loop_scan cands target bd bdata w :
  Forall (fun r => exact_match target r = false) (responses cands w) ->
  choose_loop cands target bd bdata w =
  (best_final (fold_left (best_step target) (responses cands w) (bd, bdata)),
   world_after cands w, map url cands).
Proof.
  revert bd bdata w.
  induction cands as [|c rest IH]; intros bd bdata w Hall; [reflexivity|].
  rewrite responses_cons in Hall |- *.
  inversion Hall as [|r rs Hc Hrest]; subst.
  rewrite (choose_loop_skip _ _ _ _ _ _ Hc). cbn zeta.
  rewrite (IH _ _ _ Hrest). cbn [fold_left world_after map].
  destruct (best_step target (bd, bdata) _) as [bd1 bdata1]. reflexivity.
Qed.

(** The order on distances. *)
Lemma diff_ltb_leb a b : diff_ltb a b = true -> diff_leb a b = true.
Proof. destruct a, b; simpl; try reflexivity; try discriminate; lia. Qed.

Lemma diff_ltb_false_leb a b : diff_ltb a b = false -> diff_leb b a = true.
Proof. destruct a, b; simpl; try reflexivity; try discriminate; lia. Qed.

Lemma diff_ltb_trans a b c :
  diff_ltb a b = true -> diff_ltb b c = true -> diff_ltb a c = true.
Proof. destruct a, b, c; simpl; try reflexivity; try discriminate; lia. Qed.

Lemma diff_ltb_leb_trans a b c :
  diff_ltb a b = true -> diff_leb b c = true -> diff_ltb a c = true.
Proof. destruct a, b, c; simpl; try reflexivity; try discriminate; lia. Qed.

#[local] Hint Constructors Forall : core.

Lemma diff_leb_Inf a : diff_leb Inf a = true -> a = Inf.
Proof. destruct a; simpl; [discriminate|reflexivity]. Qed.

Lemma best_step_improve target bd bdata r :
  usable (snd r) = true ->
  diff_ltb (response_diff target r) bd = true ->
  best_step target (bd, bdata) r
  = (response_diff target r, Some (response_selection target r)).
Proof. intros Hu Hlt. unfold best_step. cbn [fst]. rewrite Hu, Hlt. reflexivity. Qed.

Lemma best_step_keep target bd bdata r :
  usable (snd r) = false \/ diff_ltb (response_diff target r) bd = false ->
  best_step target (bd, bdata) r = (bd, bdata).
Proof.
  intros [Hu|Hlt]; unfold best_step; cbn [fst].
  - rewrite Hu. reflexivity.
  - rewrite Hlt. destruct (usable (snd r)); reflexivity.
Qed.

(** What a fold of [best_step] leaves: the start, when no usable
    candidate is strictly nearer than [bd]; otherwise the first of the
    nearest usable candidates. *)
Lemma fold_best_step target rs bd bdata :
  (fold_left (best_step target) rs (bd, bdata) = (bd, bdata) /\
   Forall (fun r => usable (snd r) = true ->
                    diff_leb bd (response_diff target r) = true) rs)
  \/
  (exists pre r post,
     rs = (pre ++ r :: post)%list /\
     usable (snd r) = true /\
     diff_ltb (response_diff target r) bd = true /\
     Forall (fun r' => usable (snd r') = true ->
        diff_ltb (response_diff target r) (response_diff target r') = true) pre /\
     Forall (fun r' => usable (snd r') = true ->
        diff_leb (response_diff target r) (response_diff target r') = true) post /\
     fold_left (best_step target) rs (bd, bdata) =
       (response_diff target r, Some (response_selection target r))).
Proof.
  revert bd bdata.
  induction rs as [|r0 rs IH]; intros bd bdata.
  { left. split; [reflexivity|constructor]. }
  cbn [fold_left].
  destruct (usable (snd r0)) eqn:Hu0.
  - destruct (diff_ltb (response_diff target r0) bd) eqn:Hlt0.
    + rewrite (best_step_improve _ _ _ _ Hu0 Hlt0). right.
      destruct (IH (response_diff target r0) (Some (response_selection target r0)))
        as [[Heq Hall]|(pre & r & post & -> & Hu & Hlt & Hpre & Hpost & Heq)].
      * exists [], r0, rs. repeat split; auto.
      * exists (r0 :: pre), r, post. repeat split; auto.
        eapply diff_ltb_trans; eauto.
    + rewrite (best_step_keep _ bd bdata _ (or_intror Hlt0)).
      destruct (IH bd bdata)
        as [[Heq Hall]|(pre & r & post & -> & Hu & Hlt & Hpre & Hpost & Heq)].
      * left. split; [assumption|]. constructor; [|assumption].
        intros _. apply diff_ltb_false_leb. assumption.
      * right. exists (r0 :: pre), r, post. repeat split; auto.
        constructor; [|assumption]. intros _.
        eapply diff_ltb_leb_trans; [eassumption|].
        apply diff_ltb_false_leb. assumption.
  - rewrite (best_step_keep _ bd bdata _ (or_introl Hu0)).
    destruct (IH bd bdata)
      as [[Heq Hall]|(pre & r & post & -> & Hu & Hlt & Hpre & Hpost & Heq)].
    + left. split; [assumption|]. constructor; [|assumption].
      intros Hu. rewrite Hu in Hu0. discriminate.
    + right. exists (r0 :: pre), r, post. repeat split; auto.
      constructor; [|assumption]. intros Hu'. rewrite Hu' in Hu0. discriminate.
Qed.

(** C1.  When every usable candidate is without a date (its distance is
    infinite), [choose_best_article] fetches all the candidates and
    returns the absent result [(None, None, None, None)], also when a
    usable candidate exists: [diff < best_diff] never holds for an
    infinite [diff], so [best_data] is never set.  The specification
    promises the first usable candidate in that case. *)
Theorem choose_best_article_dateless_absent cands target w :
  Forall (fun r => usable (snd r) = true -> response_diff target r = Inf)
    (responses cands w) ->
  choose_best_article cands target w
  = (absent, world_after cands w, map url cands).
Proof.
  intros Hall. unfold crawler.choose_best_article.
  rewrite choose_loop_scan.
  - replace (fold_left (best_step target) (responses cands w) (Inf, None))
      with (Inf, @None selection); [reflexivity|].
    induction Hall as [|r rs Hr _ IH]; [reflexivity|].
    cbn [fold_left]. rewrite best_step_keep; [exact IH|].
    destruct (usable (snd r)); [right|left; reflexivity].
    rewrite (Hr eq_refl). reflexivity.
  - eapply Forall_impl; [exact Hall|]. intros r Hr. cbv beta in Hr.
    unfold exact_match. destruct (usable (snd r)); [|reflexivity].
    rewrite (Hr eq_refl). reflexivity.
Qed.

(** An exact match has the target day as its effective date. *)
Lemma exact_match_date target r :
  exact_match target r = true ->
  effective_date (fst r) (pub_date (snd r)) = Some target.
Proof.
  unfold exact_match, response_diff. intros H.
  apply andb_prop in H as [_ Hz].
  destruct (effective_date _ _) as [d|]; [|discriminate].
  simpl in Hz. apply Z.eqb_eq in Hz. f_equal. lia.
Qed.

(** Up to the first exact match the loop only skips or updates its best;
    at the match it returns. *)
Lemma choose_loop_first_exact pre c post target bd bdata w :
  Forall (fun r => exact_match target r = false) (responses pre w) ->
  exact_match target
    (c, fst (get_article_data (url c) (world_after pre w))) = true ->
  choose_loop (pre ++ c :: post) target bd bdata w =
  (response_selection target
     (c, fst (get_article_data (url c) (world_after pre w))),
   snd (get_article_data (url c) (world_after pre w)),
   (map url pre ++ [url c])%list).
Proof.
  revert bd bdata w.
  induction pre as [|c0 pre IH]; intros bd bdata w Hpre Hc.
  - apply choose_loop_hit. exact Hc.
  - rewrite responses_cons in Hpre.
    inversion Hpre as [|r rs Hc0 Hrest]; subst.
    rewrite <- app_comm_cons, (choose_loop_skip _ _ _ _ _ _ Hc0). cbn zeta.
    rewrite (IH _ _ _ Hrest Hc). reflexivity.
Qed.

(** Some exact match among the candidates gives a first one. *)
Lemma first_exact_match cands target w :
  Exists (fun r => exact_match target r = true) (responses cands w) ->
  exists pre c post,
    cands = (pre ++ c :: post)%list /\
    Forall (fun r => exact_match target r = false) (responses pre w) /\
    exact_match target
      (c, fst (get_article_data (url c) (world_after pre w))) = true.
Proof.
  revert w. induction cands as [|c rest IH]; intros w Hex.
  - inversion Hex.
  - rewrite responses_cons in Hex.
    destruct (exact_match target (c, fst (get_article_data (url c) w))) eqn:Hc.
    + exists [], c, rest. repeat split; auto.
    + inversion Hex as [r rs Hhead|r rs Htail]; subst; [congruence|].
      destruct (IH _ Htail) as (pre & c1 & post & -> & Hpre & Hc1).
      exists (c :: pre), c1, post. repeat split; auto.
      rewrite responses_cons. constructor; assumption.
Qed.

(** C2.  When some usable candidate's effective date is the target day,
    [choose_best_article] returns at the first such candidate [c]: the
    candidates before it ([pre]) are the only others it fetches, none of
    those after it ([post]) is fetched, and the returned tuple is that
    candidate's title, content and url with the target day as its date,
    wherever [c] stands in the list. *)
Theorem choose_best_article_exact_match cands target w :
  Exists (fun r => exact_match target r = true) (responses cands w) ->
  exists pre c post,
    cands = (pre ++ c :: post)%list /\
    Forall (fun r => exact_match target r = false) (responses pre w) /\
    let w1 := world_after pre w in
    let data := fst (get_article_data (url c) w1) in
    usable data = true /\
    effective_date c (pub_date data) = Some target /\
    choose_best_article cands target w =
    ((title data, content data, Some (url c), Some target),
     snd (get_article_data (url c) w1),
     (map url pre ++ [url c])%list).
Proof.
  intros Hex.
  destruct (first_exact_match _ _ _ Hex) as (pre & c & post & -> & Hpre & Hc).
  exists pre, c, post. split; [reflexivity|]. split; [exact Hpre|].
  cbv zeta. pose proof (exact_match_date _ _ Hc) as Hdate. cbn [fst snd] in Hdate.
  split; [|split].
  - unfold exact_match in Hc. apply andb_prop in Hc as [Hu _]. exact Hu.
  - exact Hdate.
  - unfold crawler.choose_best_article.
    rewrite (choose_loop_first_exact _ _ _ _ _ _ _ Hpre Hc).
    unfold response_selection. cbn [fst snd]. rewrite Hdate. reflexivity.
Qed.

(** The distance the loop computes is the absolute number of days
    between the effective date and the target day, and is infinite only
    without an effective date. *)
Lemma response_diff_dated target r d :
  effective_date (fst r) (pub_date (snd r)) = Some d ->
  response_diff target r = Days (Z.abs (d - target)).
Proof. unfold response_diff. intros ->. reflexivity. Qed.

Lemma response_diff_finite target r :
  response_diff target r <> Inf <->
  is_Some (effective_date (fst r) (pub_date (snd r))).
Proof.
  unfold response_diff.
  destruct (effective_date _ _) as [d|]; cbn; split.
  - eauto.
  - discriminate.
  - intros H. exfalso. apply H. reflexivity.
  - intros [d Hd]. discriminate.
Qed.

Lemma exact_match_false target r :
  exact_match target r = false <->
  (usable (snd r) = true ->
   effective_date (fst r) (pub_date (snd r)) <> Some target).
Proof.
  unfold exact_match, response_diff.
  destruct (usable (snd r)); cbn [andb].
  - destruct (effective_date _ _) as [d|]; cbn.
    + rewrite Z.eqb_neq. split.
      * intros Hne _ [= ->]. apply Hne. lia.
      * intros Hne Hz. apply (Hne eq_refl). f_equal. lia.
    + split; [intros _ _; discriminate|reflexivity].
  - split; [intros _; discriminate|reflexivity].
Qed.

(** C3.  When no usable candidate is dated on the target day but some
    usable candidate has an effective date, [choose_best_article] fetches
    every candidate and returns the title, content, url and effective
    date [d] of a usable candidate for which the number of days
    [|d - target|] is strictly smaller than for every dated usable
    candidate before it in the list and no larger than for every dated
    usable candidate after it: the minimum distance, and the first
    candidate to reach it. *)
Theorem choose_best_article_nearest cands target w :
  Forall (fun r => usable (snd r) = true ->
                   effective_date (fst r) (pub_date (snd r)) <> Some target)
    (responses cands w) ->
  Exists (fun r => usable (snd r) = true /\
                   is_Some (effective_date (fst r) (pub_date (snd r))))
    (responses cands w) ->
  exists pre c data d post,
    responses cands w = (pre ++ (c, data) :: post)%list /\
    usable data = true /\
    effective_date c (pub_date data) = Some d /\
    Forall (fun r' =>
              usable (snd r') = true ->
              forall d', effective_date (fst r') (pub_date (snd r')) = Some d' ->
                         Z.abs (d - target) < Z.abs (d' - target)) pre /\
    Forall (fun r' =>
              usable (snd r') = true ->
              forall d', effective_date (fst r') (pub_date (snd r')) = Some d' ->
                         Z.abs (d - target) <= Z.abs (d' - target)) post /\
    choose_best_article cands target w =
    ((title data, content data, Some (url c), Some d),
     world_after cands w, map url cands).
Proof.
  intros Hnone Hsome. unfold crawler.choose_best_article.
  assert (Hnone' : Forall (fun r => exact_match target r = false)
                     (responses cands w)).
  { eapply Forall_impl; [exact Hnone|]. intros r Hr. apply exact_match_false, Hr. }
  rewrite (choose_loop_scan _ _ _ _ _ Hnone').
  destruct (fold_best_step target (responses cands w) Inf None)
    as [[_ Hall]|(pre & [c data] & post & Hsplit & Hu & Hlt & Hpre & Hpost & Heq)].
  - exfalso. apply Exists_exists in Hsome as (r & Hin & Hu & Hdated).
    rewrite Forall_forall in Hall.
    apply (response_diff_finite target) in Hdated. apply Hdated.
    apply diff_leb_Inf, Hall; assumption.
  - assert (Hd : is_Some (effective_date c (pub_date data))).
    { apply (response_diff_finite target (c, data)).
      intros Hinf. rewrite Hinf in Hlt. discriminate. }
    destruct Hd as [d Hd].
    pose proof (response_diff_dated target (c, data) d Hd) as Hdiff.
    exists pre, c, data, d, post. rewrite Heq.
    split; [exact Hsplit|]. split; [exact Hu|]. split; [exact Hd|].
    split; [|split].
    + eapply Forall_impl; [exact Hpre|]. intros r' Hr' Hu' d' Hd'.
      specialize (Hr' Hu').
      rewrite Hdiff, (response_diff_dated target r' d' Hd') in Hr'.
      cbn in Hr'. lia.
    + eapply Forall_impl; [exact Hpost|]. intros r' Hr' Hu' d' Hd'.
      specialize (Hr' Hu').
      rewrite Hdiff, (response_diff_dated target r' d' Hd') in Hr'.
      cbn in Hr'. lia.
    + unfold best_final, response_selection. cbn [fst snd].
      rewrite Hd. reflexivity.
Qed.

End SelectorFacts.

Section SelectorRuns.

Import crawler scenario.

(** The failing run of C1: one usable candidate without a date. *)
Example choose_dateless_run :
  choose_best_article nat (table_fetch dateless_pages)
    dateless_candidates target 0%nat
  = ((None, None, None, None), 1%nat, ["https://example.com/a"]).
Proof. reflexivity. Qed.

Lemma choose_best_article_dateless_absent_witness :
  Exists (fun r => usable (snd r) = true)
    (responses nat (table_fetch dateless_pages) dateless_candidates 0%nat) /\
  choose_best_article nat (table_fetch dateless_pages)
    dateless_candidates target 0%nat
  = (absent, 1%nat, ["https://example.com/a"]).
Proof.
  split.
  - apply Exists_cons_hd. reflexivity.
  - apply (choose_best_article_dateless_absent nat (table_fetch dateless_pages)
             dateless_candidates target 0%nat).
    repeat constructor.
Defined.

Example choose_exact_run :
  choose_best_article nat (table_fetch exact_pages)
    exact_candidates target 0%nat
  = ((Some "On the day", Some "text b", Some "https://example.com/b",
      Some 738886),
     2%nat, ["https://example.com/a"; "https://example.com/b"]).
Proof. reflexivity. Qed.

Lemma choose_best_article_exact_match_witness :
  exists pre c post,
    exact_candidates = (pre ++ c :: post)%list /\
    Forall (fun r => exact_match target r = false)
      (responses nat (table_fetch exact_pages) pre 0%nat) /\
    let w1 := world_after nat (table_fetch exact_pages) pre 0%nat in
    let data := fst (table_fetch exact_pages (url c) w1) in
    usable data = true /\
    effective_date c (pub_date data) = Some target /\
    choose_best_article nat (table_fetch exact_pages)
      exact_candidates target 0%nat =
    ((title data, content data, Some (url c), Some target),
     snd (table_fetch exact_pages (url c) w1),
     (map url pre ++ [url c])%list).
Proof.
  apply (choose_best_article_exact_match nat (table_fetch exact_pages)
           exact_candidates target 0%nat).
  apply Exists_cons_tl, Exists_cons_hd. reflexivity.
Defined.

(** The candidate two days after the target wins over the one a hundred
    days before it and, being first, over the one two days before it. *)
Example choose_nearest_run :
  choose_best_article nat (table_fetch nearest_pages)
    nearest_candidates target 0%nat
  = ((Some "Two after", Some "text w", Some "https://example.com/w",
      Some 738888),
     5%nat, map url nearest_candidates).
Proof. reflexivity. Qed.

Lemma choose_best_article_nearest_witness :
  exists pre c data d post,
    responses nat (table_fetch nearest_pages) nearest_candidates 0%nat
    = (pre ++ (c, data) :: post)%list /\
    usable data = true /\
    effective_date c (pub_date data) = Some d /\
    Forall (fun r' =>
              usable (snd r') = true ->
              forall d', effective_date (fst r') (pub_date (snd r')) = Some d' ->
                         Z.abs (d - target) < Z.abs (d' - target)) pre /\
    Forall (fun r' =>
              usable (snd r') = true ->
              forall d', effective_date (fst r') (pub_date (snd r')) = Some d' ->
                         Z.abs (d - target) <= Z.abs (d' - target)) post /\
    choose_best_article nat (table_fetch nearest_pages)
      nearest_candidates target 0%nat =
    ((title data, content data, Some (url c), Some d),
     world_after nat (table_fetch nearest_pages) nearest_candidates 0%nat,
     map url nearest_candidates).
Proof.
  apply (choose_best_article_nearest nat (table_fetch nearest_pages)
           nearest_candidates target 0%nat).
  - repeat first [apply List.Forall_nil | apply List.Forall_cons];
      intros Hu; vm_compute in Hu |- *; discriminate.
  - apply Exists_cons_hd. split; [reflexivity|]. exists 738786. reflexivity.
Defined.

End SelectorRuns.

(* ===================================================================== *)
(** * Properties of the candidate collection *)
(* ===================================================================== *)

Section CandidateFacts.

Import crawler.

Variable fromisoformat : string -> option date.
Variable strptime : string -> string -> option date.

Local Abbreviation tag_candidate := (tag_candidate fromisoformat strptime).
Local Abbreviation add_candidate := (add_candidate fromisoformat strptime).
Local Abbreviation collect_loop := (collect_loop fromisoformat strptime).
Local Abbreviation get_candidate_articles :=
  (get_candidate_articles fromisoformat strptime).

Lemma elem_of_first_seen c l : c ∈ first_seen l <-> c ∈ l.
Proof.
  unfold first_seen.
  rewrite elem_of_reverse, elem_of_remove_dups, elem_of_reverse. reflexivity.
Qed.

Lemma first_seen_snoc l c :
  first_seen (l ++ [c]) =
  if bool_decide (c ∈ first_seen l) then first_seen l
  else (first_seen l ++ [c])%list.
Proof.
  unfold first_seen at 1. rewrite reverse_snoc. cbn [remove_dups].
  destruct (decide_rel elem_of c (reverse l)) as [Hin|Hnin].
  - rewrite bool_decide_eq_true_2; [reflexivity|].
    apply elem_of_first_seen, elem_of_reverse, Hin.
  - rewrite bool_decide_eq_false_2.
    + rewrite reverse_cons. reflexivity.
    + intros Hin. apply Hnin, elem_of_reverse, elem_of_first_seen, Hin.
Qed.

(** Without the [break], the loop leaves the first occurrences of the
    candidates it built. *)
Lemma fold_add_candidate_first_seen articles :
  fold_left (fun acc a => add_candidate a acc) articles []
  = first_seen (omap tag_candidate articles).
Proof.
  induction articles as [|a articles IH] using rev_ind; [reflexivity|].
  rewrite fold_left_app, omap_app. cbn [fold_left omap list_omap].
  unfold crawler.add_candidate at 1.
  destruct (tag_candidate a) as [c|].
  - rewrite first_seen_snoc, IH. reflexivity.
  - rewrite app_nil_r. exact IH.
Qed.

(** The [break] makes the loop run on a prefix of the elements: all of
    them, or as many as reach [count] candidates. *)
Lemma collect_loop_prefix articles count acc :
  exists k : nat,
    collect_loop articles count acc
    = fold_left (fun acc a => add_candidate a acc) (take k articles) acc /\
    (k = length articles \/
     count <= Z.of_nat (length (collect_loop articles count acc))).
Proof.
  revert acc. induction articles as [|a articles IH]; intros acc.
  - exists 0%nat. split; [reflexivity|left; reflexivity].
  - cbn [crawler.collect_loop].
    destruct (Z.of_nat (length (add_candidate a acc)) >=? count) eqn:Hge.
    + exists 1%nat. split; [reflexivity|]. right. lia.
    + destruct (IH (add_candidate a acc)) as (k & Heq & Hk).
      exists (S k). split; [exact Heq|].
      destruct Hk as [->|Hk]; [left; reflexivity|right; exact Hk].
Qed.

(** C7, as the code has it.  The candidates [get_candidate_articles]
    hands to the selector are the candidates of a prefix of the page's
    [<article>] elements (all of them, unless [count] was reached), each
    once, in the order of first appearance, where two candidates are the
    same when they agree in url and in extracted date: no two of them
    agree in both. *)
Theorem get_candidate_articles_first_seen articles count :
  exists k : nat,
    get_candidate_articles (Some articles) count
    = first_seen (omap tag_candidate (take k articles)) /\
    (k = length articles \/
     count <= Z.of_nat (length (get_candidate_articles (Some articles) count))) /\
    NoDup (get_candidate_articles (Some articles) count).
Proof.
  unfold crawler.get_candidate_articles.
  destruct (collect_loop_prefix articles count []) as (k & Heq & Hk).
  exists k. rewrite fold_add_candidate_first_seen in Heq.
  split; [exact Heq|]. split; [exact Hk|].
  rewrite Heq. unfold first_seen.
  rewrite reverse_Permutation. apply NoDup_remove_dups.
Qed.

End CandidateFacts.

Section CandidateRuns.

Import crawler scenario.

(** C7, as the specification has it, fails: two [<article>] elements
    with the same link and different days give two candidates with the
    same url, and the selector fetches that url twice. *)
Lemma same_url_scored_twice :
  let cands :=
    get_candidate_articles fromisoformat_unused strptime_twin
      (Some twin_page) 6 in
  cands = [Candidate "https://news.google.com/articles/abc" (Some 736765);
           Candidate "https://news.google.com/articles/abc" (Some 736766)] /\
  ~ NoDup (map url cands) /\
  snd (choose_best_article nat (table_fetch twin_pages) cands target 0%nat)
  = ["https://news.google.com/articles/abc";
     "https://news.google.com/articles/abc"].
Proof.
  cbv zeta. split; [reflexivity|]. split; [|reflexivity].
  intros Hnd. vm_compute in Hnd.
  apply NoDup_cons in Hnd as [Hnin _]. apply Hnin. left.
Qed.

End CandidateRuns.

(* ===================================================================== *)
(** * Properties of the scheduler and its checkpoints *)
(* ===================================================================== *)

Section SchedulerFacts.

Import GDELT.

(** The [while] loop appends the days from [current_date] to [end_date],
    both included, in order. *)
Lemma dates_loop_seqZ dates current_date end_date :
  dates_loop dates current_date end_date
  = (dates ++ seqZ current_date (end_date - current_date + 1))%list.
Proof.
  funelim (dates_loop dates current_date end_date).
  - match goal with IH : dates_loop _ _ _ = (_ ++ _)%list |- _ => rewrite IH end.
    rewrite <- app_assoc. f_equal. cbn [app].
    rewrite (seqZ_cons current_date) by lia. do 2 f_equal; lia.
  - rewrite seqZ_nil by lia. rewrite app_nil_r. reflexivity.
Qed.

(** C4.  For a range with [start_date <= end_date], [main] submits one
    task per calendar day of the range: as many tasks as days, no day
    twice, and a day is submitted exactly when it lies in the range. *)
Theorem main_submits_each_day_once start_date end_date env fs0 :
  start_date <= end_date ->
  let days := submitted (main start_date end_date env fs0) in
  Z.of_nat (length days) = end_date - start_date + 1 /\
  NoDup days /\
  (forall d : Z, d ∈ days <-> start_date <= d <= end_date).
Proof.
  intros Hle. cbv zeta.
  assert (Hdays : submitted (main start_date end_date env fs0)
                  = seqZ start_date (end_date - start_date + 1)).
  { unfold main. destruct (except_clauses _ _). cbn [submitted].
    apply dates_loop_seqZ. }
  rewrite Hdays. split; [|split].
  - rewrite length_seqZ. lia.
  - apply NoDup_seqZ.
  - intros d. rewrite elem_of_seqZ. lia.
Qed.

Lemma main_submits_each_day_once_witness :
  let days := submitted (main 738886 738888 scenario.completed_run ∅) in
  Z.of_nat (length days) = 738888 - 738886 + 1 /\
  NoDup days /\
  (forall d : Z, d ∈ days <-> 738886 <= d <= 738888).
Proof.
  apply (main_submits_each_day_once 738886 738888 scenario.completed_run ∅).
  lia.
Defined.

(** ** The checkpoints of a run *)

Lemma checkpointed_initial fs0 : checkpointed fs0 (initial_state fs0).
Proof. repeat split. Qed.

(** One turn of the loop appends at most one result. *)
Lemma handle_appends env st day :
  daily_articles st `prefix_of` daily_articles (handle env st day).
Proof.
  unfold handle.
  destruct (future_result env day) as [[a|]|]; cbn [truthy];
    try reflexivity.
  destruct (negb _); [|reflexivity].
  cbn. apply prefix_app_r. reflexivity.
Qed.

(** One turn of the loop either writes nothing, or dumps the whole list
    of results, the new one included, to the partial file. *)
Lemma handle_snapshots env st day :
  snapshots (handle env st day) = snapshots st \/
  snapshots (handle env st day)
  = (snapshots st
     ++ [(partial_filename, daily_articles (handle env st day))])%list.
Proof.
  unfold handle.
  destruct (future_result env day) as [[a|]|]; cbn [truthy];
    try (left; reflexivity).
  destruct (negb _); [right|left]; reflexivity.
Qed.

Lemma checkpointed_handle fs0 env st day :
  checkpointed fs0 st -> checkpointed fs0 (handle env st day).
Proof.
  intros (Hsnap & Hpartial & Hothers). unfold handle.
  destruct (future_result env day) as [[a|]|]; cbn [truthy];
    [|repeat split; assumption..].
  destruct (negb _); [|repeat split; assumption].
  unfold checkpointed, save_articles. cbn.
  split; [|split].
  - rewrite imap_app, Hsnap. cbn. f_equal.
    + apply imap_ext. intros i x Hi. apply lookup_lt_Some in Hi.
      rewrite take_app_le by lia. reflexivity.
    + rewrite take_ge by (rewrite length_app; cbn; lia). reflexivity.
  - rewrite lookup_insert_eq. destruct (daily_articles st); reflexivity.
  - rewrite !delete_insert_eq. exact Hothers.
Qed.

Lemma checkpointed_fold fs0 env days st :
  checkpointed fs0 st -> checkpointed fs0 (fold_left (handle env) days st).
Proof.
  revert st. induction days as [|day days IH]; intros st Hst; [exact Hst|].
  cbn [fold_left]. apply IH, checkpointed_handle, Hst.
Qed.

Lemma checkpointed_try_block fs0 env days :
  checkpointed fs0 (try_block env days (initial_state fs0)).
Proof. apply checkpointed_fold, checkpointed_initial. Qed.

(** What [main] adds after its [try] block: one dump of the list of
    results to the default file. *)
Lemma main_final start_date end_date env fs0 :
  let st1 := try_block env (dates_loop [] start_date end_date)
               (initial_state fs0) in
  let out := final (main start_date end_date env fs0) in
  daily_articles out = daily_articles st1 /\
  fs out = <[default_filename := Json (daily_articles st1)]> (fs st1) /\
  snapshots out
  = (snapshots st1 ++ [(default_filename, daily_articles st1)])%list.
Proof.
  cbv zeta. unfold main, except_clauses.
  destruct (raised env) as [[n [|]]|]; cbn;
    rewrite insert_insert_eq; repeat split.
Qed.

(** The [k]-th dump of a run holds the first [k+1] results. *)
Lemma main_snapshot_take start_date end_date env fs0 k f s :
  let out := final (main start_date end_date env fs0) in
  snapshots out !! k = Some (f, s) ->
  s = take (S k) (daily_articles out).
Proof.
  cbv zeta. intros Hk.
  destruct (main_final start_date end_date env fs0) as (Hd & _ & Hs).
  cbv zeta in Hd, Hs. rewrite Hd. rewrite Hs in Hk. clear Hd Hs.
  destruct (checkpointed_try_block fs0 env (dates_loop [] start_date end_date))
    as (Hsnap & _ & _).
  set (st1 := try_block env _ _) in *. rewrite Hsnap in Hk.
  apply lookup_app_Some in Hk as [Hk|[Hlen Hk]].
  - apply list_lookup_imap_Some in Hk as (x & _ & Heq).
    inversion Heq. reflexivity.
  - rewrite length_imap in Hlen, Hk.
    apply list_lookup_singleton_Some in Hk as [Hz Heq].
    inversion Heq. rewrite take_ge by lia. reflexivity.
Qed.

(** C5.  Of two successive dumps of a run the earlier list is a prefix of
    the later one, so the later one is at least as long and holds every
    result of the earlier one; and every dump is a prefix of the final
    list of results. *)
Theorem checkpoints_never_shrink start_date end_date env fs0 k f1 s1 f2 s2 :
  let out := final (main start_date end_date env fs0) in
  snapshots out !! k = Some (f1, s1) ->
  snapshots out !! S k = Some (f2, s2) ->
  s1 `prefix_of` s2 /\
  (length s1 <= length s2)%nat /\
  s2 `prefix_of` daily_articles out.
Proof.
  cbv zeta. intros H1 H2.
  apply main_snapshot_take in H1. apply main_snapshot_take in H2.
  cbv zeta in H1, H2.
  set (l := daily_articles _) in *.
  assert (Hpre : s1 `prefix_of` s2).
  { rewrite H1, H2.
    replace (take (S k) l) with (take (S k) (take (S (S k)) l))
      by (rewrite take_take; f_equal; lia).
    apply prefix_take. }
  split; [exact Hpre|]. split.
  - apply prefix_length, Hpre.
  - rewrite H2. apply prefix_take.
Qed.

(** C6, as the code has it.  [save_articles] overwrites the file in
    place: whatever the file held, a reader first finds it empty and then
    finds the whole list; nothing else changes.  In [main], a turn of the
    loop that writes dumps the entire list of results so far, not the new
    result alone. *)
Theorem save_articles_overwrites_in_place articles filename st env day :
  save_articles_trace articles filename st
  = [<[filename := Truncated]> (fs st);
     <[filename := Json articles]> (fs st)] /\
  fs (save_articles articles filename st)
  = <[filename := Json articles]> (fs st) /\
  snapshots (save_articles articles filename st)
  = (snapshots st ++ [(filename, articles)])%list /\
  (snapshots (handle env st day) = snapshots st \/
   snapshots (handle env st day)
   = (snapshots st
      ++ [(partial_filename, daily_articles (handle env st day))])%list).
Proof.
  unfold save_articles_trace, save_articles. cbn.
  rewrite insert_insert_eq. repeat split. apply handle_snapshots.
Qed.

(** C8, as the code has it.  When a [KeyboardInterrupt] ends the loop
    after [n] futures, [main] has handled the first [n] completed futures
    and no other, dumps the list of results once more, to the default
    file, prints the interruption message before it, and ends like a
    completed run: the exit status is 0 in both. *)
Theorem interrupted_run_flushes_and_exits_zero
    start_date end_date results order n fs0 :
  let env := Environment results order (Some (n, KeyboardInterrupt)) in
  let days := dates_loop [] start_date end_date in
  let st1 := try_block env days (initial_state fs0) in
  let out := main start_date end_date env fs0 in
  handled env days = take n (order days) /\
  snapshots (final out)
  = (snapshots st1 ++ [(default_filename, daily_articles st1)])%list /\
  fs (final out) !! default_filename = Some (Json (daily_articles st1)) /\
  stdout (final out)
  = (stdout st1 ++ [InterruptedByUser;
                    Saved (length (daily_articles st1)) default_filename;
                    Finished])%list /\
  exit_status out = 0 /\
  exit_status (main start_date end_date (Environment results order None) fs0)
  = 0.
Proof.
  cbv zeta. unfold main, except_clauses. cbn.
  rewrite lookup_insert_eq, <- !app_assoc. repeat split.
Qed.

End SchedulerFacts.

Section SchedulerRuns.

Import GDELT scenario.

(** The run of the specification's scenario: two results, the second
    day's first. *)
Example completed_run_snapshots :
  snapshots (final (main 738886 738888 completed_run ∅))
  = [(partial_filename, [second_article]);
     (partial_filename, [second_article; first_article]);
     (default_filename, [second_article; first_article])].
Proof. vm_compute. reflexivity. Qed.

Lemma checkpoints_never_shrink_witness :
  [second_article] `prefix_of` [second_article; first_article] /\
  (length [second_article] <= length [second_article; first_article])%nat /\
  [second_article; first_article]
    `prefix_of` daily_articles (final (main 738886 738888 completed_run ∅)).
Proof.
  apply (checkpoints_never_shrink 738886 738888 completed_run ∅ 0
           partial_filename [second_article]
           partial_filename [second_article; first_article]);
    vm_compute; reflexivity.
Defined.

(** C6, as the specification has it, fails: while the second result is
    being saved over a file that holds the first, a reader finds the file
    empty, which is neither the old snapshot nor the new one. *)
Lemma save_articles_not_atomic :
  let old := [first_article] in
  let new := [first_article; second_article] in
  let st := State new {[ partial_filename := Json old ]} [] [] in
  (save_articles_trace new partial_filename st !! 0%nat)
    ≫= (fun files => files !! partial_filename) = Some Truncated /\
  Truncated <> Json old /\ Truncated <> Json new.
Proof.
  cbv zeta. split; [vm_compute; reflexivity|]. split; discriminate.
Qed.

(** C8, as the specification has it, fails: the interrupted run and the
    completed run of the scenario end with the same exit status, 0. *)
Lemma interrupted_exit_status_same :
  exit_status (main 738886 738888 interrupted_run ∅) = 0 /\
  exit_status (main 738886 738888 interrupted_run ∅)
  = exit_status (main 738886 738888 completed_run ∅) /\
  stdout (final (main 738886 738888 interrupted_run ∅))
  <> stdout (final (main 738886 738888 completed_run ∅)).
Proof.
  split; [|split]; [vm_compute; reflexivity..|].
  vm_compute. discriminate.
Qed.

End SchedulerRuns.

(* ===================================================================== *)
(** * Properties of the sentiment labels *)
(* ===================================================================== *)

Section SentimentFacts.

Local Open Scope Q_scope.

(** The chain of comparisons both functions use. *)
Lemma threshold_chain (c : Q) :
  let label :=
    if Qle_bool (1 # 100) c then "Positive"
    else if Qle_bool c (- 0) then "Negative"
    else "Neutral" in
  (1 # 100 <= c -> label = "Positive") /\
  (0 < c -> c < 1 # 100 -> label = "Neutral") /\
  (c < 0 -> label = "Negative").
Proof.
  cbv zeta. destruct c as [n d].
  unfold Qle_bool, Qle, Qlt. cbn [Qnum Qden Qopp Z.opp].
  repeat split; intros;
    repeat match goal with
    | |- context [(?a <=? ?b)%Z] => destruct (Z.leb_spec a b)
    end; try reflexivity; lia.
Qed.

(** C9, as the code has it.  In [analyze_sentiment], and for every date
    of [aggregate_sentiments], a score of at least 0.01 is labelled
    Positive, a score strictly between 0 and 0.01 Neutral, and a score
    below 0 Negative. *)
Theorem sentiment_thresholds
    (clean_text : string -> string)
    (polarity_scores : string -> textAnalyzer.scores)
    (strip : string -> string) (mean : list Q -> Q)
    (text : string) (articles : list combine.article) :
  let c := textAnalyzer.compound (polarity_scores (clean_text text)) in
  let label :=
    fst (textAnalyzer.analyze_sentiment clean_text polarity_scores text) in
  ((1 # 100 <= c -> label = "Positive") /\
   (0 < c -> c < 1 # 100 -> label = "Neutral") /\
   (c < 0 -> label = "Negative")) /\
  map_Forall
    (fun _ e =>
       (1 # 100 <= combine.avg_compound e -> combine.sentiment e = "Positive") /\
       (0 < combine.avg_compound e -> combine.avg_compound e < 1 # 100 ->
        combine.sentiment e = "Neutral") /\
       (combine.avg_compound e < 0 -> combine.sentiment e = "Negative"))
    (combine.aggregate_sentiments strip mean articles).
Proof.
  cbv zeta. split.
  - apply threshold_chain.
  - intros date e He. unfold combine.aggregate_sentiments in He.
    apply lookup_fmap_Some in He as (compounds & <- & _).
    apply threshold_chain.
Qed.

End SentimentFacts.

Section SentimentRuns.

Import scenario.

Local Open Scope Q_scope.

Example analyze_positive :
  fst (textAnalyzer.analyze_sentiment keep_text
         (fun _ => textAnalyzer.Scores 0 (1 # 2) (1 # 2) (4404 # 10000))
         "Great results")
  = "Positive".
Proof. reflexivity. Qed.

Lemma sentiment_thresholds_witness :
  fst (textAnalyzer.analyze_sentiment keep_text
         (fun _ => textAnalyzer.Scores 0 1 0 (5 # 1000)) "A quiet day")
  = "Neutral".
Proof.
  apply (sentiment_thresholds keep_text
           (fun _ => textAnalyzer.Scores 0 1 0 (5 # 1000))
           keep_text exact_mean "A quiet day" flat_day);
    reflexivity.
Defined.

(** C9, as the specification has it, fails: the scores -0.005 and 0.0
    lie strictly between -0.01 and 0.01 and are labelled Negative, by
    [analyze_sentiment] and by [aggregate_sentiments] alike. *)
Lemma dead_zone_labelled_negative :
  (- (1 # 100) < - (5 # 1000) /\ - (5 # 1000) < 1 # 100) /\
  fst (textAnalyzer.analyze_sentiment keep_text faintly_negative_scores
         "Shares slipped a little")
  = "Negative" /\
  (- (1 # 100) < 0 /\ 0 < 1 # 100) /\
  fst (textAnalyzer.analyze_sentiment keep_text no_sentiment_scores
         "The meeting is on Tuesday")
  = "Negative" /\
  combine.sentiment
    <$> combine.aggregate_sentiments keep_text exact_mean flat_day
        !! "2019-04-15"
  = Some "Negative".
Proof.
  repeat split; vm_compute; reflexivity.
Qed.

End SentimentRuns.

(* ===================================================================== *)
(** * More on the scheduler: results, interruption, one day's task *)
(* ===================================================================== *)

Section SchedulerResults.

Import GDELT.

Lemma handle_daily_articles env st day :
  daily_articles (handle env st day)
  = (daily_articles st ++ option_list (appended env day))%list.
Proof.
  unfold handle, appended.
  destruct (future_result env day) as [[a|]|]; cbn [truthy].
  - destruct (negb _); cbn; [reflexivity|]. rewrite app_nil_r. reflexivity.
  - cbn. rewrite app_nil_r. reflexivity.
  - cbn. rewrite app_nil_r. reflexivity.
Qed.

Lemma fold_handle_daily_articles env days st :
  daily_articles (fold_left (handle env) days st)
  = (daily_articles st ++ omap (appended env) days)%list.
Proof.
  revert st. induction days as [|day days IH]; intros st.
  - cbn. rewrite app_nil_r. reflexivity.
  - cbn [fold_left]. rewrite IH, handle_daily_articles, <- app_assoc.
    f_equal. cbn [omap list_omap]. destruct (appended env day); reflexivity.
Qed.

Lemma length_omap_le {A B} (f : A -> option B) (l : list A) :
  (length (omap f l) <= length l)%nat.
Proof.
  induction l as [|x l IH]; [reflexivity|].
  cbn [omap list_omap]. destruct (f x); cbn [length]; lia.
Qed.

(** The results of a run, read off the futures it handled. *)
Lemma main_daily_articles start_date end_date env fs0 :
  daily_articles (final (main start_date end_date env fs0))
  = omap (appended env) (handled env (dates_loop [] start_date end_date)).
Proof.
  destruct (main_final start_date end_date env fs0) as (Hd & _ & _).
  cbv zeta in Hd. rewrite Hd.
  unfold try_block. rewrite fold_handle_daily_articles. reflexivity.
Qed.

Lemma appended_future_result env1 env2 :
  future_result env1 = future_result env2 -> appended env1 = appended env2.
Proof. intros H. unfold appended. rewrite H. reflexivity. Qed.

(** X1.  The results of a run are, in completion order, the non-empty
    dicts returned by the futures the loop handled: a task that raised or
    returned [None] adds nothing and does not keep later futures from
    being handled.  The default file ends up holding exactly this list,
    which has at most one entry per handled future. *)
Theorem main_results start_date end_date env fs0 :
  let out := final (main start_date end_date env fs0) in
  let days := handled env (dates_loop [] start_date end_date) in
  daily_articles out = omap (appended env) days /\
  fs out !! default_filename = Some (Json (omap (appended env) days)) /\
  (length (daily_articles out) <= length days)%nat.
Proof.
  cbv zeta.
  destruct (main_final start_date end_date env fs0) as (Hd & Hfs & _).
  cbv zeta in Hfs. rewrite Hfs, lookup_insert_eq.
  rewrite main_daily_articles in Hd. rewrite <- Hd, main_daily_articles.
  repeat split. apply length_omap_le.
Qed.

(** X2.  An interrupted run keeps a prefix of what the same run would
    have collected had it not been interrupted: nothing the completed
    run would not have, and in the same order. *)
Theorem interrupted_results_prefix start_date end_date results order n e fs0 :
  daily_articles
    (final (main start_date end_date
              (Environment results order (Some (n, e))) fs0))
  `prefix_of`
  daily_articles
    (final (main start_date end_date (Environment results order None) fs0)).
Proof.
  rewrite !main_daily_articles. unfold handled. cbn [raised as_completed].
  rewrite (appended_future_result _ (Environment results order None))
    by reflexivity.
  set (l := order _).
  rewrite <- (take_drop n l) at 2. rewrite omap_app.
  apply prefix_app_r. reflexivity.
Qed.

(** X3.  When no exception ends the loop and [as_completed] yields every
    submitted future once (in any order), the results are, up to order,
    what the days of the range give, one result at most per day. *)
Theorem completed_run_covers_range start_date end_date env fs0 :
  raised env = None ->
  as_completed env (dates_loop [] start_date end_date)
    ≡ₚ dates_loop [] start_date end_date ->
  let out := final (main start_date end_date env fs0) in
  daily_articles out
    ≡ₚ omap (appended env) (seqZ start_date (end_date - start_date + 1)) /\
  (Z.of_nat (length (daily_articles out))
   <= Z.max 0 (end_date - start_date + 1)).
Proof.
  intros Hraised Hperm. cbv zeta.
  rewrite main_daily_articles. unfold handled. rewrite Hraised.
  assert (Hp : omap (appended env)
                 (as_completed env (dates_loop [] start_date end_date))
               ≡ₚ omap (appended env)
                    (seqZ start_date (end_date - start_date + 1))).
  { rewrite Hperm, dates_loop_seqZ. reflexivity. }
  split; [exact Hp|].
  rewrite Hp. pose proof (length_omap_le (appended env)
                 (seqZ start_date (end_date - start_date + 1))) as Hlen.
  rewrite length_seqZ in Hlen. lia.
Qed.

(** X4.  A run leaves every file other than its two output files as it
    found it. *)
Theorem main_touches_two_files start_date end_date env fs0 :
  delete partial_filename
    (delete default_filename (fs (final (main start_date end_date env fs0))))
  = delete partial_filename (delete default_filename fs0).
Proof.
  destruct (main_final start_date end_date env fs0) as (_ & Hfs & _).
  destruct (checkpointed_try_block fs0 env (dates_loop [] start_date end_date))
    as (_ & _ & Hothers).
  cbv zeta in Hfs. rewrite Hfs, delete_insert_eq.
  rewrite (delete_delete _ partial_filename default_filename), Hothers.
  apply delete_delete.
Qed.

(** What one turn of the loop does, by the result of the future. *)
Lemma handle_kept env st day a :
  appended env day = Some a ->
  daily_articles (handle env st day) = (daily_articles st ++ [a])%list /\
  fs (handle env st day)
  = <[partial_filename := Json (daily_articles st ++ [a])]> (fs st) /\
  snapshots (handle env st day)
  = (snapshots st ++ [(partial_filename, (daily_articles st ++ [a])%list)])%list.
Proof.
  unfold appended, handle.
  destruct (future_result env day) as [[a'|]|]; cbn [truthy]; try discriminate.
  destruct (negb _); [|discriminate].
  intros [= ->]. cbn. rewrite insert_insert_eq. repeat split.
Qed.

Lemma handle_dropped env st day :
  appended env day = None ->
  daily_articles (handle env st day) = daily_articles st /\
  fs (handle env st day) = fs st /\
  snapshots (handle env st day) = snapshots st.
Proof.
  unfold appended, handle.
  destruct (future_result env day) as [[a'|]|]; cbn [truthy].
  - destruct (negb _); [discriminate|]. repeat split.
  - repeat split.
  - repeat split.
Qed.

(** C10.  Two different files are written.  Each turn of the loop whose
    future gave a result dumps the whole list, that result included, to
    ['daily_english_articles_partial.json'], and a turn without a result
    writes nothing.  The [finally] clause, from whatever state the [try]
    block was left in, dumps the list once to
    ['daily_english_articles save.json'] and leaves the partial file as
    it is.  So in a run the dumps are one to the partial file per result,
    the [i]-th holding the first [i+1] results, then one to the default
    file with all results; and the partial file ends up with the results
    as of the last successful day, or as it was found when no day
    succeeded.  When the interrupt strikes inside a dump to the partial
    file, after [open] has emptied it, the final flush still writes all
    results, the last one included, to the default file, and the partial
    file stays as that dump left it: empty. *)
Theorem final_flush_keeps_partial_file start_date end_date env fs0 :
  let results :=
    omap (appended env) (handled env (dates_loop [] start_date end_date)) in
  let out := final (main start_date end_date env fs0) in
  (partial_filename = "daily_english_articles_partial.json" /\
   default_filename = "daily_english_articles save.json" /\
   partial_filename <> default_filename) /\
  (forall st day,
     match appended env day with
     | Some a =>
         daily_articles (handle env st day) = (daily_articles st ++ [a])%list /\
         fs (handle env st day)
         = <[partial_filename := Json (daily_articles st ++ [a])]> (fs st) /\
         snapshots (handle env st day)
         = (snapshots st
            ++ [(partial_filename, (daily_articles st ++ [a])%list)])%list
     | None =>
         daily_articles (handle env st day) = daily_articles st /\
         fs (handle env st day) = fs st /\
         snapshots (handle env st day) = snapshots st
     end) /\
  (forall st,
     fs (finally_clause st) !! partial_filename = fs st !! partial_filename /\
     fs (finally_clause st) !! default_filename
     = Some (Json (daily_articles st)) /\
     snapshots (finally_clause st)
     = (snapshots st ++ [(default_filename, daily_articles st)])%list /\
     fs (finally_clause (print InterruptedByUser (open_w partial_filename st)))
       !! partial_filename
     = Some Truncated) /\
  snapshots out
  = (imap (fun i _ => (partial_filename, take (S i) results)) results
     ++ [(default_filename, results)])%list /\
  fs out !! default_filename = Some (Json results) /\
  fs out !! partial_filename
  = match results with
    | [] => fs0 !! partial_filename
    | _ :: _ => Some (Json results)
    end /\
  (forall before day,
     match appended env day, interrupted_in_dump env before day fs0 with
     | Some a, Some cut =>
         daily_articles cut = (omap (appended env) before ++ [a])%list /\
         fs cut !! default_filename
         = Some (Json (omap (appended env) before ++ [a])) /\
         fs cut !! partial_filename = Some Truncated /\
         snapshots cut
         = (imap (fun i _ =>
                    (partial_filename, take (S i) (omap (appended env) before)))
              (omap (appended env) before)
            ++ [(default_filename,
                 (omap (appended env) before ++ [a])%list)])%list
     | None, None => True
     | _, _ => False
     end).
Proof.
  cbv zeta.
  assert (Hne : partial_filename <> default_filename) by discriminate.
  split; [repeat split; exact Hne|]. split; [|split; [|repeat apply conj]].
  - intros st day. destruct (appended env day) as [a|] eqn:Ha.
    + apply handle_kept, Ha.
    + apply handle_dropped, Ha.
  - intros st. unfold finally_clause, save_articles. cbn.
    rewrite insert_insert_eq, lookup_insert_eq.
    rewrite !lookup_insert_ne by (intros Heq; apply Hne; symmetry; exact Heq).
    rewrite lookup_insert_eq. repeat split.
  - destruct (main_final start_date end_date env fs0) as (Hd & _ & Hs).
    destruct (checkpointed_try_block fs0 env
                (dates_loop [] start_date end_date)) as (Hsnap & _ & _).
    cbv zeta in Hd, Hs. rewrite main_daily_articles in Hd.
    rewrite Hs, Hsnap, <- Hd. reflexivity.
  - destruct (main_final start_date end_date env fs0) as (Hd & Hfs & _).
    cbv zeta in Hd, Hfs. rewrite main_daily_articles in Hd.
    rewrite Hfs, <- Hd. apply lookup_insert_eq.
  - destruct (main_final start_date end_date env fs0) as (Hd & Hfs & _).
    destruct (checkpointed_try_block fs0 env
                (dates_loop [] start_date end_date)) as (_ & Hpartial & _).
    cbv zeta in Hd, Hfs. rewrite main_daily_articles in Hd.
    rewrite Hfs.
    rewrite lookup_insert_ne by (intros Heq; apply Hne; symmetry; exact Heq).
    rewrite Hpartial, <- Hd. reflexivity.
  - intros before day. unfold interrupted_in_dump.
    destruct (appended env day) as [a|]; [|exact I].
    destruct (checkpointed_fold fs0 env before _ (checkpointed_initial fs0))
      as (Hsnap & _ & _).
    pose proof (fold_handle_daily_articles env before (initial_state fs0))
      as Hd.
    cbn [initial_state daily_articles app] in Hd.
    unfold finally_clause, save_articles. cbn.
    rewrite Hd, Hsnap, Hd, lookup_insert_eq.
    rewrite !lookup_insert_ne by (intros Heq; apply Hne; symmetry; exact Heq).
    rewrite lookup_insert_eq. repeat split.
Qed.

End SchedulerResults.

Section DayFacts.

Import GDELT.

Variable strftime : Z -> string.
Variable article_search : Filters -> search_outcome.

Local Abbreviation process_day := (process_day strftime article_search).

Lemma is_english_language a :
  is_english a = true <-> a !! "language" = Some "English".
Proof. unfold is_english. apply bool_decide_eq_true. Qed.

Lemma is_english_nonempty (a : gmap string string) : is_english a = true -> a <> ∅.
Proof.
  intros H%is_english_language ->. rewrite lookup_empty in H. discriminate.
Qed.

(** [find] returns the first row that passes the test. *)
Lemma find_first {A} (f : A -> bool) l x :
  List.find f l = Some x ->
  exists pre post,
    l = (pre ++ x :: post)%list /\ f x = true /\
    Forall (fun y => f y = false) pre.
Proof.
  induction l as [|y l IH]; cbn [List.find]; [discriminate|].
  destruct (f y) eqn:Hy.
  - intros [= ->]. exists [], l. repeat split; auto.
  - intros (pre & post & -> & Hx & Hpre)%IH.
    exists (y :: pre), post. repeat split; auto.
Qed.

Lemma find_None_Forall {A} (f : A -> bool) l :
  List.find f l = None <-> Forall (fun y => f y = false) l.
Proof.
  induction l as [|y l IH]; cbn [List.find].
  - split; auto.
  - destruct (f y) eqn:Hy.
    + split; [discriminate|]. intros H. inversion H; congruence.
    + rewrite IH. split; [auto|]. intros H. inversion H; assumption.
Qed.

Lemma find_nonempty_guard {A} (f : A -> bool) (l : list A) :
  match l with [] => None | _ :: _ => List.find f l end = List.find f l.
Proof. destruct l; reflexivity. Qed.

(** What [process_day] returns is an English row with [query_date]. *)
Lemma process_day_Some_row current_date a :
  process_day current_date = Some a ->
  exists row,
    row !! "language" = Some "English" /\
    a = <["query_date" := strftime current_date]> row.
Proof.
  unfold GDELT.process_day.
  destruct (article_search _) as [|rows]; [discriminate|].
  rewrite find_nonempty_guard.
  destruct (List.find is_english rows) as [row|] eqn:Hfind; [|discriminate].
  apply find_some in Hfind as [_ Hrow].
  rewrite bool_decide_eq_false_2 by (apply is_english_nonempty, Hrow).
  intros [= <-]. exists row. split; [|reflexivity].
  apply is_english_language, Hrow.
Qed.

(** X5.  When [process_day] returns an article, the search succeeded and
    the article is its first row whose language is English, with the
    day's [query_date] added (replacing one the row had); the dict is not
    empty, so [main] keeps it. *)
Theorem process_day_found current_date a :
  process_day current_date = Some a ->
  exists pre row post,
    article_search (day_filters strftime current_date)
    = SearchRows (pre ++ row :: post) /\
    Forall (fun r => r !! "language" <> Some "English") pre /\
    row !! "language" = Some "English" /\
    a = <["query_date" := strftime current_date]> row /\
    a !! "query_date" = Some (strftime current_date) /\
    a !! "language" = Some "English" /\
    truthy (Some a) = true.
Proof.
  unfold GDELT.process_day.
  destruct (article_search _) as [|rows]; [discriminate|].
  rewrite find_nonempty_guard.
  destruct (List.find is_english rows) as [row|] eqn:Hfind; [|discriminate].
  destruct (find_first _ _ _ Hfind) as (pre & post & -> & Hrow & Hpre).
  rewrite bool_decide_eq_false_2 by (apply is_english_nonempty, Hrow).
  intros [= <-]. exists pre, row, post.
  apply is_english_language in Hrow.
  split; [reflexivity|]. split.
  { eapply Forall_impl; [exact Hpre|]. intros r Hr Hlang.
    apply is_english_language in Hlang. congruence. }
  split; [exact Hrow|]. split; [reflexivity|].
  split; [apply lookup_insert_eq|].
  split; [rewrite lookup_insert_ne by discriminate; exact Hrow|].
  cbn. apply negb_true_iff, bool_decide_eq_false_2, insert_non_empty.
Qed.

(** X6.  [process_day] returns [None] exactly when the search raised or
    no row of its result has the language English (an empty result
    included). *)
Theorem process_day_none current_date :
  process_day current_date = None <->
  article_search (day_filters strftime current_date) = SearchRaised \/
  exists rows,
    article_search (day_filters strftime current_date) = SearchRows rows /\
    Forall (fun r => r !! "language" <> Some "English") rows.
Proof.
  unfold GDELT.process_day.
  destruct (article_search _) as [|rows].
  { split; [left; reflexivity|reflexivity]. }
  rewrite find_nonempty_guard.
  destruct (List.find is_english rows) as [row|] eqn:Hfind.
  - rewrite bool_decide_eq_false_2
      by (apply is_english_nonempty; apply find_some in Hfind; apply Hfind).
    split; [discriminate|]. intros [H|(rows' & [= <-] & Hall)]; [discriminate|].
    exfalso. apply find_some in Hfind as [Hin Hrow].
    rewrite Forall_forall in Hall. apply (Hall row).
    + apply list_elem_of_In, Hin.
    + apply is_english_language, Hrow.
  - split; [|reflexivity]. intros _. right. exists rows. split; [reflexivity|].
    apply find_None_Forall in Hfind.
    eapply Forall_impl; [exact Hfind|]. intros r Hr Hlang.
    apply is_english_language in Hlang. congruence.
Qed.

(** X7.  In a run whose tasks are [process_day], the results are exactly
    the articles [process_day] finds for the handled days, in completion
    order; each carries the [query_date] of its day and the language
    English. *)
Theorem pool_results start_date end_date order raised fs0 :
  let env := pool_environment strftime article_search order raised in
  let days := handled env (dates_loop [] start_date end_date) in
  let out := final (main start_date end_date env fs0) in
  daily_articles out = omap process_day days /\
  Forall (fun a => a !! "language" = Some "English" /\
                   exists day, day ∈ days /\
                     a !! "query_date" = Some (strftime day))
    (daily_articles out).
Proof.
  cbv zeta. rewrite main_daily_articles.
  set (days := handled _ _).
  assert (Heq : forall day,
            appended (pool_environment strftime article_search order raised) day
            = process_day day).
  { intros day. unfold appended, pool_environment. cbn [future_result].
    destruct (process_day day) as [a|] eqn:Hday; [|reflexivity].
    destruct (process_day_Some_row _ _ Hday) as (row & _ & ->).
    cbn. rewrite bool_decide_eq_false_2 by apply insert_non_empty.
    reflexivity. }
  rewrite (list_omap_ext _ process_day days days)
    by (apply Forall_Forall2_diag, Forall_forall; intros; apply Heq).
  split; [reflexivity|].
  apply Forall_forall. intros a Ha.
  apply list_elem_of_omap in Ha as (day & Hday & Hfound).
  destruct (process_day_Some_row _ _ Hfound) as (row & Hrow & ->).
  split.
  - rewrite lookup_insert_ne by discriminate. exact Hrow.
  - exists day. split; [exact Hday|]. apply lookup_insert_eq.
Qed.

End DayFacts.

Section SchedulerResultRuns.

Import GDELT scenario.

Lemma completed_run_covers_range_witness :
  let out := final (main 738886 738888 completed_run ∅) in
  daily_articles out
    ≡ₚ omap (appended completed_run) (seqZ 738886 (738888 - 738886 + 1)) /\
  (Z.of_nat (length (daily_articles out)) <= Z.max 0 (738888 - 738886 + 1)).
Proof.
  apply (completed_run_covers_range 738886 738888 completed_run ∅).
  - reflexivity.
  - apply reverse_Permutation.
Defined.

(** The three days of the GDELT scenario: the first English row with the
    day added, then a failed search, then an empty result. *)
Example process_day_run :
  map (process_day iso_day gdelt_service) [738886; 738887; 738888]
  = [Some (<["query_date" := "2024-01-01"]> english_row); None; None].
Proof. vm_compute. reflexivity. Qed.

Lemma process_day_found_witness :
  exists pre row post,
    gdelt_service (day_filters iso_day 738886)
    = SearchRows (pre ++ row :: post) /\
    Forall (fun r => r !! "language" <> Some "English") pre /\
    row !! "language" = Some "English" /\
    <["query_date" := "2024-01-01"]> english_row
    = <["query_date" := iso_day 738886]> row /\
    <["query_date" := "2024-01-01"]> english_row !! "query_date"
    = Some (iso_day 738886) /\
    <["query_date" := "2024-01-01"]> english_row !! "language"
    = Some "English" /\
    truthy (Some (<["query_date" := "2024-01-01"]> english_row)) = true.
Proof.
  apply (process_day_found iso_day gdelt_service 738886
           (<["query_date" := "2024-01-01"]> english_row)).
  vm_compute. reflexivity.
Defined.

(** The files after the completed run of the scenario and after the
    interrupted one, both started without files: the partial file holds
    what the last successful day dumped, the default file the same
    list. *)
Example completed_run_files :
  fs (final (main 738886 738888 completed_run ∅))
  = {[ partial_filename := Json [second_article; first_article];
       default_filename := Json [second_article; first_article] ]}.
Proof. vm_compute. reflexivity. Qed.

Example interrupted_run_files :
  fs (final (main 738886 738888 interrupted_run ∅))
  = {[ partial_filename := Json [second_article];
       default_filename := Json [second_article] ]}.
Proof. vm_compute. reflexivity. Qed.

Lemma final_flush_keeps_partial_file_witness :
  let out := final (main 738886 738888 interrupted_run ∅) in
  snapshots out
  = [(partial_filename, [second_article]);
     (default_filename, [second_article])] /\
  fs out !! default_filename = Some (Json [second_article]) /\
  fs out !! partial_filename = Some (Json [second_article]).
Proof.
  destruct (final_flush_keeps_partial_file 738886 738888 interrupted_run ∅)
    as (_ & _ & _ & Hsnap & Hdefault & Hpartial & _).
  exact (conj Hsnap (conj Hdefault Hpartial)).
Defined.

(** The interrupted run again, with the interrupt landing inside the
    dump of the second result instead: the default file has both
    results, the partial file is empty. *)
Example interrupted_in_dump_files :
  fs <$> interrupted_in_dump interrupted_run [738888; 738887] 738886 ∅
  = Some {[ partial_filename := Truncated;
            default_filename := Json [second_article; first_article] ]}.
Proof. vm_compute. reflexivity. Qed.

End SchedulerResultRuns.

(* ===================================================================== *)
(** * More on the crawler: search URL, candidates, selection, main loop *)
(* ===================================================================== *)

Section UrlFacts.

Import crawler.

Lemma quote_byte_chars_checked a :
  forallb quoted_char (list_ascii_of_string (quote_byte a)) = true.
Proof. destruct a as [[] [] [] [] [] [] [] []]; vm_compute; reflexivity. Qed.

Lemma quote_byte_chars a :
  Forall (fun c => quoted_char c = true) (list_ascii_of_string (quote_byte a)).
Proof.
  apply Forall_forall. intros c Hc.
  pose proof (quote_byte_chars_checked a) as H.
  rewrite forallb_forall in H. apply H, list_elem_of_In, Hc.
Qed.

Lemma list_ascii_of_string_app s t :
  list_ascii_of_string (s ++ t)
  = (list_ascii_of_string s ++ list_ascii_of_string t)%list.
Proof.
  induction s as [|a s IH]; [reflexivity|].
  cbn [list_ascii_of_string app]. rewrite <- IH. reflexivity.
Qed.

Lemma quote_chars s :
  Forall (fun c => quoted_char c = true) (list_ascii_of_string (quote s)).
Proof.
  induction s as [|a s IH]; cbn [quote]; [constructor|].
  rewrite list_ascii_of_string_app. apply Forall_app.
  split; [apply quote_byte_chars|exact IH].
Qed.

Lemma unquote_quote_byte a t :
  unquote (quote_byte a ++ t) = String a (unquote t).
Proof. destruct a as [[] [] [] [] [] [] [] []]; reflexivity. Qed.

Lemma unquote_quote s : unquote (quote s) = s.
Proof.
  induction s as [|a s IH]; [reflexivity|].
  cbn [quote]. rewrite unquote_quote_byte, IH. reflexivity.
Qed.

Lemma string_length_app (s t : string) :
  String.length (s ++ t) = (String.length s + String.length t)%nat.
Proof.
  induction s as [|a s IH]; [reflexivity|].
  cbn [String.length Nat.add]. rewrite <- IH. reflexivity.
Qed.

Lemma append_inj_l (p s t : string) : (p ++ s = p ++ t)%string -> s = t.
Proof. induction p as [|a p IH]; cbn; [auto|]. intros [= H]. auto. Qed.

Lemma append_inj_r (s t q : string) :
  String.length s = String.length t -> (s ++ q = t ++ q)%string -> s = t.
Proof.
  revert t. induction s as [|a s IH]; intros [|b t]; cbn; try discriminate.
  - reflexivity.
  - intros [= Hlen] [= -> H]. f_equal. auto.
Qed.

(** X8.  The search URL is the fixed address, the quoted query
    ["dd.mm.yyyy keyword"] and the fixed locale parameters; the quoted
    query is made of letters, digits and [_.-~/%] only, so no space and
    none of [&=?#+] of the keyword reaches the URL unescaped. *)
Theorem search_url_is_escaped (strftime_dmy : date -> string) d keyword :
  let url := fst (get_google_news_url strftime_dmy d keyword) in
  let query := snd (get_google_news_url strftime_dmy d keyword) in
  query = (strftime_dmy d ++ " " ++ keyword)%string /\
  url = ("https://news.google.com/search?q=" ++ quote query
         ++ "&hl=en-US&gl=US&ceid=US:en")%string /\
  Forall (fun c => quoted_char c = true /\
                   ~ In c [" "; "&"; "="; "?"; "#"; "+"]%char)
    (list_ascii_of_string (quote query)).
Proof.
  cbv zeta. unfold get_google_news_url. cbn [fst snd].
  split; [reflexivity|]. split; [reflexivity|].
  eapply Forall_impl; [apply quote_chars|].
  intros c Hc. split; [exact Hc|].
  intros Hin. cbn in Hin.
  repeat (destruct Hin as [<-|Hin]; [vm_compute in Hc; discriminate|]).
  exact Hin.
Qed.

(** X9.  [quote] loses nothing: different queries give different search
    URLs. *)
Theorem search_url_injective (strftime_dmy : date -> string) d1 k1 d2 k2 :
  snd (get_google_news_url strftime_dmy d1 k1)
  <> snd (get_google_news_url strftime_dmy d2 k2) ->
  fst (get_google_news_url strftime_dmy d1 k1)
  <> fst (get_google_news_url strftime_dmy d2 k2).
Proof.
  unfold get_google_news_url. cbn [fst snd]. intros Hne Heq. apply Hne.
  apply append_inj_l in Heq.
  assert (Hq : quote (strftime_dmy d1 ++ " " ++ k1)
               = quote (strftime_dmy d2 ++ " " ++ k2)).
  { apply (append_inj_r _ _ "&hl=en-US&gl=US&ceid=US:en"); [|exact Heq].
    apply (f_equal String.length) in Heq.
    rewrite !string_length_app in Heq. lia. }
  rewrite <- (unquote_quote (strftime_dmy d1 ++ " " ++ k1)), Hq.
  apply unquote_quote.
Qed.

End UrlFacts.

Section CandidateBounds.

Import crawler.

Variable fromisoformat : string -> option date.
Variable strptime : string -> string -> option date.

Local Abbreviation tag_candidate := (tag_candidate fromisoformat strptime).
Local Abbreviation add_candidate := (add_candidate fromisoformat strptime).
Local Abbreviation collect_loop := (collect_loop fromisoformat strptime).
Local Abbreviation get_candidate_articles :=
  (get_candidate_articles fromisoformat strptime).

Lemma absolute_href_not_relative href :
  String.prefix "./" (absolute_href href) = false.
Proof.
  unfold absolute_href.
  destruct (String.prefix "./" href) eqn:H; [reflexivity|exact H].
Qed.

Lemma add_candidate_length article acc :
  (length acc <= length (add_candidate article acc) <= S (length acc))%nat.
Proof.
  unfold crawler.add_candidate. destruct (tag_candidate article) as [c|]; [|lia].
  destruct (bool_decide _); [lia|]. rewrite length_app. cbn. lia.
Qed.

Lemma collect_loop_below_count articles count acc :
  Z.of_nat (length acc) < count ->
  Z.of_nat (length (collect_loop articles count acc)) <= count.
Proof.
  revert acc. induction articles as [|a articles IH]; intros acc Hacc;
    cbn [crawler.collect_loop]; [lia|].
  pose proof (add_candidate_length a acc) as Hadd.
  destruct (_ >=? count) eqn:Hge; [lia|].
  apply IH. lia.
Qed.

(** X10.  [get_candidate_articles] returns at most [count] candidates
    (at most one when [count] is below 1, since the limit is only tested
    after an element was read), none when the page failed to load; every
    candidate comes from an [<article>] element of the page, and no
    candidate url is left relative (starting with ["./"]). *)
Theorem get_candidate_articles_bounds page count :
  let cands := get_candidate_articles page count in
  Z.of_nat (length cands) <= Z.max count 1 /\
  (page = None -> cands = []) /\
  Forall (fun c =>
            String.prefix "./" (url c) = false /\
            exists article,
              article ∈ default [] page /\ tag_candidate article = Some c)
    cands.
Proof.
  cbv zeta. destruct page as [articles|]; cbn [crawler.get_candidate_articles default].
  2: { split; [cbn; lia|]. split; [reflexivity|constructor]. }
  split; [|split; [discriminate|]].
  - destruct articles as [|a articles]; cbn [crawler.collect_loop]; [cbn; lia|].
    pose proof (add_candidate_length a []) as Hadd. cbn [length] in Hadd.
    destruct (_ >=? count) eqn:Hge; [lia|].
    pose proof (collect_loop_below_count articles count (add_candidate a [])).
    lia.
  - destruct (collect_loop_prefix fromisoformat strptime articles count [])
      as (k & Heq & _).
    rewrite fold_add_candidate_first_seen in Heq. rewrite Heq.
    apply Forall_forall. intros c Hc.
    apply elem_of_first_seen, list_elem_of_omap in Hc as (article & Hin & Htag).
    split.
    + unfold crawler.tag_candidate in Htag.
      destruct (anchor_href article); [|discriminate].
      injection Htag as <-. apply absolute_href_not_relative.
    + exists article. split; [|exact Htag].
      apply elem_of_take in Hin as (i & Hi & _).
      eapply list_elem_of_lookup_2, Hi.
Qed.

End CandidateBounds.

Section SelectorShape.

Import crawler.

Variable World : Type.
Variable get_article_data : string -> World -> article_data * World.

Local Abbreviation choose_loop := (choose_loop World get_article_data).
Local Abbreviation choose_best_article := (choose_best_article World get_article_data).
Local Abbreviation responses := (responses World get_article_data).
Local Abbreviation world_after := (world_after World get_article_data).

Lemma date_diff_finite cd target :
  date_diff cd target <> Inf -> exists d, cd = Some d.
Proof. destruct cd as [d|]; [eauto|]. intros H. exfalso. apply H. reflexivity. Qed.

Lemma choose_loop_shape cands target bd bdata w (known : _ -> Prop) :
  (forall sel, bdata = Some sel -> dated_selection known sel) ->
  let r := fst (fst (choose_loop cands target bd bdata w)) in
  r = absent \/
  dated_selection (fun x => known x \/ x ∈ responses cands w) r.
Proof.
  revert bd bdata w known.
  induction cands as [|c rest IH]; intros bd bdata w known Hbest; cbv zeta.
  - cbn. destruct bdata as [sel|]; [right|left; reflexivity].
    destruct (Hbest sel eq_refl) as (c & data & d & Hk & Hu & Hd & ->).
    exists c, data, d. auto.
  - pose proof (responses_cons World get_article_data c rest w) as Hresp.
    cbn [crawler.choose_loop].
    destruct (get_article_data (url c) w) as [data w1] eqn:Hfetch.
    cbn [fst snd] in Hresp.
    assert (Hweaken : forall r0,
      (r0 = absent \/
       dated_selection
         (fun x => (known x \/ x = (c, data)) \/ x ∈ responses rest w1) r0) ->
      r0 = absent \/
      dated_selection (fun x => known x \/ x ∈ responses (c :: rest) w) r0).
    { intros r0 [->|(c0 & data0 & d0 & Hk & Hu & Hd & ->)]; [left; reflexivity|].
      right. exists c0, data0, d0. repeat split; auto.
      rewrite Hresp. destruct Hk as [[Hk|Hk]|Hk]; [left; exact Hk| |].
      - right. rewrite Hk. apply list_elem_of_here.
      - right. apply list_elem_of_further, Hk. }
    assert (Hkeep : forall sel, bdata = Some sel ->
              dated_selection (fun x => known x \/ x = (c, data)) sel).
    { intros sel Hsel.
      destruct (Hbest sel Hsel) as (c0 & data0 & d0 & Hk & Hu & Hd & ->).
      exists c0, data0, d0. auto. }
    rewrite usable_negb.
    destruct (usable data) eqn:Hu; cbn [negb].
    + destruct (diff_is_zero _) eqn:Hz.
      * cbn [fst]. apply Hweaken. right.
        destruct (effective_date c (pub_date data)) as [d|] eqn:Hd;
          [|discriminate].
        exists c, data, d. repeat split; auto.
      * destruct (diff_ltb _ bd) eqn:Hlt.
        -- specialize (IH (date_diff (effective_date c (pub_date data)) target)
             (Some (title data, content data, Some (url c),
                    effective_date c (pub_date data)))
             w1 (fun x => known x \/ x = (c, data))).
           cbv zeta in IH.
           destruct (choose_loop rest target _ _ w1) as [[r0 w2] fetched].
           cbn [fst] in *. apply Hweaken, IH.
           intros sel [= <-].
           destruct (date_diff_finite (effective_date c (pub_date data)) target)
             as [d Hd].
           { intros Hinf. rewrite Hinf in Hlt. discriminate. }
           exists c, data, d. rewrite Hd. repeat split; auto.
        -- specialize (IH bd bdata w1 (fun x => known x \/ x = (c, data)) Hkeep).
           cbv zeta in IH.
           destruct (choose_loop rest target bd bdata w1) as [[r0 w2] fetched].
           cbn [fst] in *. apply Hweaken, IH.
    + specialize (IH bd bdata w1 (fun x => known x \/ x = (c, data)) Hkeep).
      cbv zeta in IH.
      destruct (choose_loop rest target bd bdata w1) as [[r0 w2] fetched].
      cbn [fst] in *. apply Hweaken, IH.
Qed.

(** X11.  What [choose_best_article] returns is either the absent tuple
    or the title, content and url of a candidate it fetched, whose title
    and content are non-empty and whose date is known: it never returns a
    candidate without a date. *)
Theorem choose_best_article_shape cands target w :
  let r := fst (fst (choose_best_article cands target w)) in
  r = absent \/
  exists c data d,
    (c, data) ∈ responses cands w /\
    truthy (title data) = true /\ truthy (content data) = true /\
    effective_date c (pub_date data) = Some d /\
    r = (title data, content data, Some (url c), Some d).
Proof.
  cbv zeta. unfold crawler.choose_best_article.
  destruct (choose_loop_shape cands target Inf None w (fun _ => False))
    as [H|(c & data & d & Hk & Hu & Hd & H)].
  - discriminate.
  - left. exact H.
  - right. exists c, data, d. unfold usable in Hu.
    apply andb_prop in Hu as [Ht Hc].
    destruct Hk as [[]|Hk]. repeat split; assumption.
Qed.

(** X12.  The urls [choose_best_article] fetches are a prefix of the
    candidates' urls: it fetches the candidates in order, each at most
    once, skipping none, and the world it leaves is the world after
    exactly these downloads. *)
Theorem choose_best_article_fetches_prefix cands target w :
  let '(_, w', fetched) := choose_best_article cands target w in
  fetched = map url (take (length fetched) cands) /\
  w' = world_after (take (length fetched) cands) w.
Proof.
  unfold crawler.choose_best_article. generalize Inf (@None selection).
  revert w. induction cands as [|c rest IH]; intros w bd bdata.
  - cbn. split; reflexivity.
  - cbn [crawler.choose_loop].
    destruct (get_article_data (url c) w) as [data w1] eqn:Hfetch.
    assert (Hstep : forall bd' bdata',
      let '(_, w', fetched) :=
        let '(r, w2, fetched) := choose_loop rest target bd' bdata' w1 in
        (r, w2, url c :: fetched) in
      fetched = map url (take (length fetched) (c :: rest)) /\
      w' = world_after (take (length fetched) (c :: rest)) w).
    { intros bd' bdata'. specialize (IH w1 bd' bdata').
      destruct (choose_loop rest target bd' bdata' w1) as [[r0 w2] fetched].
      destruct IH as [Hf Hw]. cbn [length take map crawler.world_after].
      rewrite Hfetch. cbn [snd]. split; [f_equal; exact Hf|exact Hw]. }
    destruct (negb _ || negb _); [apply Hstep|].
    destruct (diff_is_zero _).
    + cbn. rewrite Hfetch. split; reflexivity.
    + destruct (diff_ltb _ bd); apply Hstep.
Qed.

End SelectorShape.

Section CrawlerMainFacts.

Import crawler.

Variable World : Type.
Variable strftime_dmy : date -> string.
Variable load_page : string -> World -> option (list article_tag) * World.
Variable get_article_data : string -> World -> article_data * World.
Variable fromisoformat : string -> option date.
Variable strptime : string -> string -> option date.

Local Abbreviation day_step :=
  (day_step World strftime_dmy load_page get_article_data fromisoformat strptime).
Local Abbreviation main_loop :=
  (main_loop World strftime_dmy load_page get_article_data fromisoformat strptime).
Local Abbreviation main :=
  (main World strftime_dmy load_page get_article_data fromisoformat strptime).

(** One day adds nothing or one complete result dated that day. *)
Lemma day_step_adds d results w :
  exists new,
    fst (day_step d (results, w)) = (results ++ new)%list /\
    (new = [] \/
     exists r, new = [r] /\ result_date r = d /\
               complete_result strftime_dmy r).
Proof.
  unfold crawler.day_step, get_google_news_url.
  destruct (load_page _ w) as [page w1].
  destruct (get_candidate_articles fromisoformat strptime page 6)
    as [|c0 cands0] eqn:Hc.
  { exists []. rewrite app_nil_r. split; [reflexivity|left; reflexivity]. }
  pose proof (choose_loop_shape World get_article_data (c0 :: cands0) d
                Inf None w1 (fun _ => False)) as Hshape.
  unfold crawler.choose_best_article.
  destruct (crawler.choose_loop World get_article_data (c0 :: cands0) d Inf None w1)
    as [[sel w2] fetched].
  cbv zeta in Hshape. cbn [fst] in Hshape.
  destruct Hshape as [->|(c & data & dt & _ & Hu & Hd & ->)]; [discriminate| |].
  - cbn. exists []. rewrite app_nil_r. split; [reflexivity|left; reflexivity].
  - unfold usable in Hu. apply andb_prop in Hu as [Ht Hcn].
    rewrite Hcn. eexists. split; [reflexivity|]. right.
    eexists. split; [reflexivity|]. split; [reflexivity|].
    repeat split; cbn; eauto.
Qed.

Lemma fold_day_step_adds days results w :
  exists new,
    fst (fold_left (fun st d => day_step d st) days (results, w))
    = (results ++ new)%list /\
    map result_date new `sublist_of` days /\
    Forall (complete_result strftime_dmy) new.
Proof.
  revert results w. induction days as [|d days IH]; intros results w.
  - exists []. cbn. rewrite app_nil_r. repeat split; constructor.
  - cbn [fold_left].
    destruct (day_step_adds d results w) as (new1 & H1 & Hnew1).
    destruct (day_step d (results, w)) as [results1 w1]. cbn [fst] in H1.
    subst results1.
    destruct (IH (results ++ new1)%list w1) as (new2 & H2 & Hsub & Hall).
    exists (new1 ++ new2)%list. rewrite H2, <- app_assoc.
    split; [reflexivity|].
    destruct Hnew1 as [->|(r & -> & Hd & Hr)]; cbn.
    + split; [apply sublist_cons, Hsub|exact Hall].
    + split; [rewrite Hd; apply sublist_skip, Hsub|constructor; assumption].
Qed.

(** The [while] loop visits the days from [current_date] up to, and not
    including, [end_date], in order. *)
Lemma main_loop_fold current_date end_date st :
  main_loop current_date end_date st
  = fold_left (fun st d => day_step d st)
      (seqZ current_date (end_date - current_date)) st.
Proof.
  funelim (crawler.main_loop World strftime_dmy load_page get_article_data
             fromisoformat strptime current_date end_date st).
  - match goal with
    | IH : crawler.main_loop _ _ _ _ _ _ _ _ _ = fold_left _ _ _ |- _ =>
        rewrite IH
    end.
    rewrite (seqZ_cons current_date) by lia. cbn [fold_left].
    do 2 f_equal. lia.
  - rewrite seqZ_nil by lia. reflexivity.
Qed.

(** X13.  The results of the crawler's [main] are dated by days of the
    seven times 365 days before [today], in increasing order and with at
    most one result per day; [today] itself is never searched. *)
Theorem crawler_main_days today w :
  let results := fst (main today w) in
  map result_date results `sublist_of` seqZ (today - 2555) 2555 /\
  (length results <= 2555)%nat /\
  Forall (fun r => today - 2555 <= result_date r < today) results.
Proof.
  cbv zeta. unfold crawler.main. rewrite main_loop_fold.
  replace (today - (today - 7 * 365)) with 2555 by lia.
  replace (today - 7 * 365) with (today - 2555) by lia.
  destruct (fold_day_step_adds (seqZ (today - 2555) 2555) [] w)
    as (new & -> & Hsub & _).
  cbn [app]. split; [exact Hsub|]. split.
  - apply sublist_length in Hsub.
    rewrite length_map, length_seqZ in Hsub. lia.
  - apply Forall_forall. intros r Hr.
    assert (Hin : result_date r ∈ seqZ (today - 2555) 2555).
    { eapply elem_of_sublist; [|exact Hsub]. apply list_elem_of_fmap.
      exists r. split; [reflexivity|exact Hr]. }
    apply elem_of_seqZ in Hin. lia.
Qed.

(** X14.  Every result of the crawler's [main] has a non-empty title and
    content, a url, the query of its day, and a publish date: since the
    selector never returns a candidate without a date, the [None] that
    [main] provides for a missing publish date is never stored. *)
Theorem crawler_main_results_complete today w :
  Forall (complete_result strftime_dmy) (fst (main today w)).
Proof.
  unfold crawler.main. rewrite main_loop_fold.
  destruct (fold_day_step_adds
              (seqZ (today - 7 * 365) (today - (today - 7 * 365))) [] w)
    as (new & -> & _ & Hall).
  exact Hall.
Qed.

End CrawlerMainFacts.

(* ===================================================================== *)
(** * More on the sentiment tables *)
(* ===================================================================== *)

Section AggregateFacts.

Import combine.

Local Open Scope Q_scope.

Variable strip : string -> string.
Variable mean : list Q -> Q.

Local Abbreviation date_key := (date_key strip).
Local Abbreviation group_by_date := (group_by_date strip).
Local Abbreviation compounds_of := (compounds_of strip).
Local Abbreviation aggregate_sentiments := (aggregate_sentiments strip mean).

(** The first loop, from any dict built so far. *)
Lemma group_fold key (articles : list article) (by_date : gmap string (list Q)) :
  fold_left
    (fun by_date a =>
       match compound a with
       | None => by_date
       | Some c =>
           <[date_key a := (default [] (by_date !! date_key a) ++ [c])%list]>
             by_date
       end)
    articles by_date !! key
  = match compounds_of key articles with
    | [] => by_date !! key
    | _ :: _ =>
        Some (default [] (by_date !! key) ++ compounds_of key articles)%list
    end.
Proof.
  revert by_date. induction articles as [|a articles IH]; intros by_date;
    [reflexivity|].
  cbn [fold_left]. rewrite IH. clear IH.
  unfold combine.compounds_of. cbn [omap list_omap].
  fold (compounds_of key articles).
  destruct (compound a) as [c|].
  - destruct (decide (date_key a = key)) as [->|Hne].
    + rewrite bool_decide_eq_true_2 by reflexivity.
      rewrite lookup_insert_eq. cbn [default].
      destruct (compounds_of key articles); [reflexivity|].
      unfold id. rewrite <- app_assoc. reflexivity.
    + rewrite bool_decide_eq_false_2 by exact Hne.
      rewrite lookup_insert_ne by exact Hne. reflexivity.
  - destruct (bool_decide _); reflexivity.
Qed.

Lemma group_by_date_lookup (articles : list article) key :
  group_by_date articles !! key
  = match compounds_of key articles with
    | [] => None
    | c :: cs => Some (c :: cs)
    end.
Proof.
  unfold combine.group_by_date. rewrite group_fold, lookup_empty.
  destruct (compounds_of key articles); reflexivity.
Qed.

(** X15.  [aggregate_sentiments] has an entry for a date exactly when
    some article filed under that date has a score; the entry is computed
    from the scores of these articles in file order, articles without a
    score being ignored, so [statistics.mean] is never given an empty
    list. *)
Theorem aggregate_sentiments_lookup (articles : list article) key :
  aggregate_sentiments articles !! key
  = match compounds_of key articles with
    | [] => None
    | c :: cs => Some (aggregate_entry mean (c :: cs))
    end.
Proof.
  unfold combine.aggregate_sentiments.
  rewrite lookup_fmap, group_by_date_lookup.
  destruct (compounds_of key articles); reflexivity.
Qed.

Lemma delete_news_columns {A} (m : gmap string A) x y :
  delete "News_Compound"
    (delete "News_Sentiment"
       (<["News_Compound" := x]> (<["News_Sentiment" := y]> m)))
  = delete "News_Compound" (delete "News_Sentiment" m).
Proof.
  rewrite (delete_delete _ "News_Compound" "News_Sentiment").
  rewrite delete_insert_eq.
  rewrite (delete_delete _ "News_Sentiment" "News_Compound").
  rewrite delete_insert_eq. reflexivity.
Qed.

(** The news columns of a merged row. *)
Lemma with_news_lookup (articles : list article) date_str
    (row : gmap string cell) :
  let merged := with_news (aggregate_sentiments articles) date_str row in
  delete "News_Compound" (delete "News_Sentiment" merged)
  = delete "News_Compound" (delete "News_Sentiment" row) /\
  match compounds_of (substring 0 10 date_str) articles with
  | [] =>
      merged !! "News_Sentiment" = Some (Text "") /\
      merged !! "News_Compound" = Some (Text "")
  | c :: cs =>
      merged !! "News_Sentiment"
      = Some (Text (sentiment (aggregate_entry mean (c :: cs)))) /\
      merged !! "News_Compound" = Some (Float (mean (c :: cs)))
  end.
Proof.
  cbv zeta. unfold with_news, combine.aggregate_sentiments.
  rewrite lookup_fmap, group_by_date_lookup.
  destruct (compounds_of _ articles) as [|c cs];
    cbn [fmap option_fmap option_map avg_compound aggregate_entry];
    (split;
     [apply delete_news_columns
     |split;
      [rewrite lookup_insert_ne by discriminate; apply lookup_insert_eq
      |apply lookup_insert_eq]]).
Qed.

Lemma with_news_keys sentiments date_str (row : gmap string cell) names :
  map_Forall (fun k _ => k ∈ (names ++ news_columns)%list)
    (with_news sentiments date_str row)
  <-> map_Forall (fun k _ => k ∈ (names ++ news_columns)%list) row.
Proof.
  assert (Hs : "News_Sentiment" ∈ (names ++ news_columns)%list)
    by (apply elem_of_app; right; apply list_elem_of_here).
  assert (Hc : "News_Compound" ∈ (names ++ news_columns)%list)
    by (apply elem_of_app; right; apply list_elem_of_further, list_elem_of_here).
  assert (Hgen : forall x y,
    map_Forall (fun k _ => k ∈ (names ++ news_columns)%list)
      (<["News_Compound" := x]> (<["News_Sentiment" := y]> row))
    <-> map_Forall (fun k (_ : cell) => k ∈ (names ++ news_columns)%list) row).
  { intros x y. rewrite !map_Forall_lookup. split.
    - intros H k v Hk.
      destruct (decide (k = "News_Compound")) as [->|H1]; [exact Hc|].
      destruct (decide (k = "News_Sentiment")) as [->|H2]; [exact Hs|].
      apply (H k v). rewrite !lookup_insert_ne by congruence. exact Hk.
    - intros H k v Hk.
      destruct (decide (k = "News_Compound")) as [->|H1]; [exact Hc|].
      destruct (decide (k = "News_Sentiment")) as [->|H2]; [exact Hs|].
      rewrite !lookup_insert_ne in Hk by congruence. apply (H k v Hk). }
  unfold with_news. destruct (sentiments !! _); apply Hgen.
Qed.

Lemma merge_row_Some sentiments row m :
  merge_row sentiments row = Some m <->
  cells row !! "Date" <> Some None /\
  m = (with_news sentiments (row_date row) (read_cell <$> cells row),
       surplus row).
Proof.
  unfold merge_row, row_date.
  destruct (cells row !! "Date") as [[date_str|]|]; cbn [default].
  - split; [intros [= <-]; split; [discriminate|reflexivity]|].
    intros [_ ->]. reflexivity.
  - split; [discriminate|]. intros [H _]. congruence.
  - split; [intros [= <-]; split; [discriminate|reflexivity]|].
    intros [_ ->]. reflexivity.
Qed.

Lemma writable_merged names sentiments row :
  writable (names ++ news_columns)
    (with_news sentiments (row_date row) (read_cell <$> cells row),
     surplus row) = true
  <-> surplus row = false /\
      map_Forall (fun k _ => k ∈ (names ++ news_columns)%list) (cells row).
Proof.
  unfold writable. cbn [fst snd].
  rewrite andb_true_iff, negb_true_iff, bool_decide_eq_true, with_news_keys.
  rewrite map_Forall_fmap. reflexivity.
Qed.

(** What the function returns on rows that all get through. *)
Lemma merge_well_read sentiments names rows :
  Forall (well_read names) rows ->
  merge_sentiments_to_csv (Some names) rows sentiments
  = Some ((names ++ news_columns)%list,
          map (fun row => with_news sentiments (row_date row)
                            (read_cell <$> cells row)) rows).
Proof.
  intros Hall. unfold merge_sentiments_to_csv.
  assert (Hm : mapM (merge_row sentiments) rows
               = Some (map (fun row =>
                              (with_news sentiments (row_date row)
                                 (read_cell <$> cells row), surplus row))
                         rows)).
  { apply mapM_Some. induction Hall as [|row rows [Hd _] _ IH];
      constructor; [|exact IH].
    apply merge_row_Some. split; [exact Hd|reflexivity]. }
  rewrite Hm.
  assert (Hw : forallb (writable (names ++ news_columns))
                 (map (fun row =>
                         (with_news sentiments (row_date row)
                            (read_cell <$> cells row), surplus row)) rows)
               = true).
  { apply forallb_forall. intros m Hin. apply in_map_iff in Hin as (row & <- & Hin).
    apply writable_merged. rewrite Forall_forall in Hall.
    apply list_elem_of_In in Hin. destruct (Hall row Hin) as (_ & ? & ?). auto. }
  rewrite Hw, map_map. reflexivity.
Qed.

Lemma merge_is_Some sentiments names rows :
  is_Some (merge_sentiments_to_csv (Some names) rows sentiments) ->
  Forall (well_read names) rows.
Proof.
  unfold merge_sentiments_to_csv.
  destruct (mapM (merge_row sentiments) rows) as [merged|] eqn:Hm;
    [|intros [? [=]]].
  destruct (forallb _ merged) eqn:Hw; [|intros [? [=]]]. intros _.
  apply mapM_Some in Hm. rewrite forallb_forall in Hw.
  induction Hm as [|row m rows merged Hrow _ IH]; constructor.
  - apply merge_row_Some in Hrow as [Hd ->].
    assert (Hwr : writable (names ++ news_columns)
                    (with_news sentiments (row_date row)
                       (read_cell <$> cells row), surplus row) = true)
      by (apply Hw; left; reflexivity).
    apply writable_merged in Hwr as [? ?]. repeat split; assumption.
  - apply IH. intros m' Hin. apply Hw. right. exact Hin.
Qed.

(** X16.  [combine.py]'s [main] raises on an empty price table (no
    header), and otherwise writes a table exactly when every row is long
    enough for its [Date], not longer than the header, and keyed by
    columns of the written header.  The table written has the header
    with ['News_Sentiment'] and ['News_Compound'] added at its end and
    the rows read, in order, each with its own columns unchanged; the
    news columns of a row are empty strings exactly when no scored
    article is filed under the first ten characters of its [Date], and
    otherwise hold the label and the mean of that date's scores. *)
Theorem main_merges_by_date (articles : list article) names
    (rows : list csv_row) :
  main strip mean articles None rows = None /\
  (is_Some (main strip mean articles (Some names) rows)
   <-> Forall (well_read names) rows) /\
  forall header out,
    main strip mean articles (Some names) rows = Some (header, out) ->
    header = (names ++ ["News_Sentiment"; "News_Compound"])%list /\
    length out = length rows /\
    forall i row,
      rows !! i = Some row ->
      exists merged,
        out !! i = Some merged /\
        delete "News_Compound" (delete "News_Sentiment" merged)
        = read_cell <$> delete "News_Compound"
                          (delete "News_Sentiment" (cells row)) /\
        match compounds_of (substring 0 10 (row_date row)) articles with
        | [] =>
            merged !! "News_Sentiment" = Some (Text "") /\
            merged !! "News_Compound" = Some (Text "")
        | c :: cs =>
            merged !! "News_Sentiment"
            = Some (Text (sentiment (aggregate_entry mean (c :: cs)))) /\
            merged !! "News_Compound" = Some (Float (mean (c :: cs)))
        end.
Proof.
  unfold combine.main. split; [reflexivity|]. split.
  { split; [apply merge_is_Some|].
    intros Hall. rewrite (merge_well_read _ _ _ Hall). eauto. }
  intros header out Hout.
  assert (Hall : Forall (well_read names) rows)
    by (eapply merge_is_Some; rewrite Hout; eauto).
  rewrite (merge_well_read _ _ _ Hall) in Hout. injection Hout as <- <-.
  split; [reflexivity|]. split; [apply length_map|].
  intros i row Hrow. eexists. split.
  { rewrite list_lookup_fmap, Hrow. reflexivity. }
  destruct (with_news_lookup articles (row_date row) (read_cell <$> cells row))
    as [Hdel Hnews].
  split; [|exact Hnews].
  rewrite Hdel, !fmap_delete. reflexivity.
Qed.

End AggregateFacts.

Section MergeRuns.

Import combine scenario.

(** The price table of the scenario, merged with the two articles of
    2019-04-15 scored 0.0: that day's row gets the label and the mean,
    the next day's row two empty strings. *)
Example price_table_merged :
  main keep_text exact_mean flat_day (Some price_header) price_rows
  = Some (["Date"; "Close"; "News_Sentiment"; "News_Compound"],
          [ {[ "Date" := Text "2019-04-15 00:00:00-04:00";
               "Close" := Text "199.23";
               "News_Sentiment" := Text "Negative";
               "News_Compound" := Float (exact_mean [0%Q; 0%Q]) ]};
            {[ "Date" := Text "2019-04-16 00:00:00-04:00";
               "Close" := Text "199.25";
               "News_Sentiment" := Text "";
               "News_Compound" := Text "" ]} ]).
Proof. vm_compute. reflexivity. Qed.

Lemma main_merges_by_date_witness :
  exists merged,
    main keep_text exact_mean flat_day (Some price_header) price_rows
    = Some ((price_header ++ ["News_Sentiment"; "News_Compound"])%list,
            merged) /\
    length merged = length price_rows /\
    (exists row,
       merged !! 0%nat = Some row /\
       row !! "Close" = Some (Text "199.23") /\
       row !! "News_Sentiment" = Some (Text "Negative")).
Proof.
  destruct (main_merges_by_date keep_text exact_mean flat_day price_header
              price_rows) as (_ & [_ Hsome] & Hout).
  destruct Hsome as [[header out] Hmain].
  { repeat apply List.Forall_cons; [..|apply List.Forall_nil];
      (split; [vm_compute; discriminate|split; [reflexivity|]]);
      apply (bool_decide_unpack _); vm_compute; exact I. }
  destruct (Hout header out Hmain) as (-> & Hlen & Hrows).
  exists out. split; [exact Hmain|]. split; [exact Hlen|].
  destruct (Hrows 0%nat
              (price_row (Some "2019-04-15 00:00:00-04:00") (Some "199.23")
                 false) eq_refl)
    as (row & Hrow & Hkeep & Hnews).
  exists row. split; [exact Hrow|]. split; [|exact (proj1 Hnews)].
  assert (Hclose : delete "News_Compound" (delete "News_Sentiment" row)
                     !! "Close" = Some (Text "199.23"))
    by (rewrite Hkeep; vm_compute; reflexivity).
  rewrite !lookup_delete_ne in Hclose by discriminate. exact Hclose.
Defined.

(** The line too short for its [Date] and the line with a field too
    many both make the script raise, the first in the slice, the second
    in the writer; a line that only lacks its [Close] does not. *)
Example short_row_raises :
  main keep_text exact_mean flat_day (Some ["Close"; "Date"]) short_rows
  = None.
Proof. vm_compute. reflexivity. Qed.

Example long_row_raises :
  main keep_text exact_mean flat_day (Some price_header) long_rows = None.
Proof. vm_compute. reflexivity. Qed.

Example dated_only_row_written :
  main keep_text exact_mean flat_day (Some price_header) dated_only_rows
  = Some (["Date"; "Close"; "News_Sentiment"; "News_Compound"],
          [ {[ "Date" := Text "2019-04-15";
               "Close" := Blank;
               "News_Sentiment" := Text "Negative";
               "News_Compound" := Float (exact_mean [0%Q; 0%Q]) ]} ]).
Proof. vm_compute. reflexivity. Qed.

End MergeRuns.

Section UrlRuns.

Import crawler scenario.

(** The docstring's example: March 11, 2018 and the keyword apple. *)
Example search_url_run :
  get_google_news_url dmy_day 736764 "apple"
  = ("https://news.google.com/search?q=11.03.2018%20apple&hl=en-US&gl=US&ceid=US:en",
     "11.03.2018 apple").
Proof. reflexivity. Qed.

Example quote_run : quote "a&b=c d/e~f" = "a%26b%3Dc%20d/e~f".
Proof. reflexivity. Qed.

Lemma search_url_injective_witness :
  fst (get_google_news_url dmy_day 736764 "a&b")
  <> fst (get_google_news_url dmy_day 736764 "a%26b").
Proof.
  apply (search_url_injective dmy_day 736764 "a&b" 736764 "a%26b").
  discriminate.
Defined.

End UrlRuns.

(* ===================================================================== *)
(** * More on the annotation of articles *)
(* ===================================================================== *)

Section AnnotateFacts.

Import textAnalyzer.

Local Open Scope Q_scope.

Variable clean_text : string -> string.
Variable polarity_scores : string -> scores.

Local Abbreviation add_sentiment := (add_sentiment clean_text polarity_scores).
Local Abbreviation add_sentiment_to_articles :=
  (add_sentiment_to_articles clean_text polarity_scores).

(** What the loop body does to one article. *)
Lemma add_sentiment_Some a a' :
  add_sentiment a = Some a' ->
  exists text,
    article_text_value a = VText text /\
    a' = <["sentiment_scores" := VScores (polarity_scores (clean_text text))]>
           (<["sentiment" :=
                VText (fst (analyze_sentiment clean_text polarity_scores text))]>
              a).
Proof.
  unfold textAnalyzer.add_sentiment.
  destruct (article_text_value a) as [text| |]; try discriminate.
  intros [= <-]. exists text. split; reflexivity.
Qed.

Lemma article_text_value_annotated a x y :
  article_text_value
    (<["sentiment_scores" := x]> (<["sentiment" := y]> a))
  = article_text_value a.
Proof.
  unfold article_text_value.
  rewrite !(lookup_insert_ne _ "sentiment_scores") by discriminate.
  rewrite !(lookup_insert_ne _ "sentiment") by discriminate.
  reflexivity.
Qed.

Lemma add_sentiment_again a a' :
  add_sentiment a = Some a' -> add_sentiment a' = Some a'.
Proof.
  intros (text & Htext & ->)%add_sentiment_Some.
  unfold textAnalyzer.add_sentiment.
  rewrite article_text_value_annotated, Htext. cbn.
  f_equal. apply map_eq. intros k.
  destruct (decide (k = "sentiment_scores")) as [->|Hs].
  { rewrite !lookup_insert_eq. reflexivity. }
  rewrite !(lookup_insert_ne _ "sentiment_scores") by congruence.
  destruct (decide (k = "sentiment")) as [->|Ht].
  { rewrite !lookup_insert_eq. reflexivity. }
  repeat rewrite lookup_insert_ne by congruence.
  reflexivity.
Qed.

Lemma add_sentiment_to_articles_Forall2 data out :
  add_sentiment_to_articles data = Some out <->
  Forall2 (fun a a' => add_sentiment a = Some a') data out.
Proof.
  revert out. induction data as [|a data IH]; intros out;
    cbn [textAnalyzer.add_sentiment_to_articles].
  - split; [intros [= <-]; constructor|intros H; inversion H; reflexivity].
  - destruct (add_sentiment a) as [a'|] eqn:Ha.
    + destruct (add_sentiment_to_articles data) as [rest'|] eqn:Hrest.
      * split.
        -- intros [= <-]. constructor; [exact Ha|]. apply IH. reflexivity.
        -- intros H. inversion H as [|? b ? out' Hb Hout]; subst.
           apply IH in Hout. congruence.
      * split; [discriminate|].
        intros H. inversion H as [|? b ? out' Hb Hout]; subst.
        apply IH in Hout. discriminate.
    + split; [discriminate|].
      intros H. inversion H; subst. congruence.
Qed.

(** X17.  When [add_sentiment_to_articles] returns, it returns as many
    articles as it was given, in the same order; each is the given
    article with its two sentiment keys set and every other key
    unchanged, the scores being those of the article's own text (its
    content, or its title when the content is missing or empty), and the
    label stored agrees with the compound score stored beside it. *)
Theorem add_sentiment_to_articles_result data out :
  add_sentiment_to_articles data = Some out ->
  length out = length data /\
  forall i a,
    data !! i = Some a ->
    exists a' text,
      out !! i = Some a' /\
      article_text_value a = VText text /\
      delete "sentiment_scores" (delete "sentiment" a')
      = delete "sentiment_scores" (delete "sentiment" a) /\
      a' !! "sentiment_scores"
      = Some (VScores (polarity_scores (clean_text text))) /\
      exists label,
        a' !! "sentiment" = Some (VText label) /\
        let c := compound (polarity_scores (clean_text text)) in
        (1 # 100 <= c -> label = "Positive") /\
        (0 < c -> c < 1 # 100 -> label = "Neutral") /\
        (c < 0 -> label = "Negative").
Proof.
  intros H%add_sentiment_to_articles_Forall2. split.
  { symmetry. eapply Forall2_length, H. }
  intros i a Ha.
  destruct (Forall2_lookup_l _ _ _ _ _ H Ha) as (a' & Ha' & Hadd).
  apply add_sentiment_Some in Hadd as (text & Htext & ->).
  eexists. exists text. split; [exact Ha'|]. split; [exact Htext|]. split.
  { rewrite (delete_delete _ "sentiment_scores" "sentiment").
    rewrite delete_insert_eq.
    rewrite (delete_delete _ "sentiment" "sentiment_scores").
    rewrite delete_insert_eq. reflexivity. }
  split; [apply lookup_insert_eq|].
  eexists. split.
  { rewrite lookup_insert_ne by discriminate. apply lookup_insert_eq. }
  apply threshold_chain.
Qed.

(** X18.  Annotating again changes nothing: on the articles it returned,
    [add_sentiment_to_articles] succeeds and returns them as they are. *)
Theorem add_sentiment_to_articles_again data out :
  add_sentiment_to_articles data = Some out ->
  add_sentiment_to_articles out = Some out.
Proof.
  intros H%add_sentiment_to_articles_Forall2.
  apply add_sentiment_to_articles_Forall2.
  induction H as [|a a' data out Ha _ IH]; constructor; [|exact IH].
  apply (add_sentiment_again a), Ha.
Qed.

(** X19.  [add_sentiment_to_articles] raises exactly when, for some
    article, the value it takes as text (the content if truthy, else the
    title, else the empty string) is not a string. *)
Theorem add_sentiment_to_articles_raises data :
  add_sentiment_to_articles data = None <->
  Exists (fun a => forall text, article_text_value a <> VText text) data.
Proof.
  induction data as [|a data IH]; cbn [textAnalyzer.add_sentiment_to_articles].
  - split; [discriminate|]. intros H. inversion H.
  - unfold textAnalyzer.add_sentiment at 1.
    destruct (article_text_value a) as [text|sc|b] eqn:Htext.
    + cbn. destruct (add_sentiment_to_articles data) as [rest'|].
      * split; [discriminate|]. intros H.
        inversion H as [? ? Hhead|? ? Htail]; subst.
        -- exfalso. apply (Hhead text). exact Htext.
        -- apply IH in Htail. discriminate.
      * split; [|reflexivity]. intros _. apply Exists_cons_tl, IH. reflexivity.
    + split; [|reflexivity]. intros _. apply Exists_cons_hd.
      intros text. rewrite Htext. discriminate.
    + split; [|reflexivity]. intros _. apply Exists_cons_hd.
      intros text. rewrite Htext. discriminate.
Qed.

End AnnotateFacts.

(* ===================================================================== *)
(** * More on the cleaning of texts *)
(* ===================================================================== *)

Section CleanFacts.

Import textAnalyzer.

Variable lower : pystr -> pystr.

Local Abbreviation keep_line := (keep_line lower).
Local Abbreviation clean_text := (clean_text lower).

(** Induction that follows [splitlines_from], which may step over two
    characters at once. *)
Lemma list_two_step_ind {A} (P : list A -> Prop) :
  P [] -> (forall c, P [c]) ->
  (forall c c2 s, P s -> P (c2 :: s) -> P (c :: c2 :: s)) ->
  forall s, P s.
Proof.
  intros Hnil Hone Hstep s.
  assert (H : P s /\ forall c, P (c :: s)).
  { induction s as [|c2 s [IH1 IH2]].
    - split; [exact Hnil|exact Hone].
    - split; [apply IH2|]. intros c. apply Hstep; [exact IH1|apply IH2]. }
  apply H.
Qed.

(** ** Lines *)

Lemma splitlines_from_segment l cur rest :
  Forall (fun c => is_linebreak c = false) l ->
  splitlines_from cur (l ++ rest) = splitlines_from (cur ++ l) rest.
Proof.
  revert cur. induction l as [|c l IH]; intros cur Hl.
  - rewrite app_nil_r. reflexivity.
  - inversion Hl as [|? ? Hc Hl']; subst.
    cbn [app splitlines_from]. rewrite Hc, IH by exact Hl'.
    rewrite <- app_assoc. reflexivity.
Qed.

Lemma splitlines_from_newline cur rest :
  splitlines_from cur (10%N :: rest) = cur :: splitlines_from [] rest.
Proof. destruct rest; reflexivity. Qed.

Lemma splitlines_from_two cur c c2 s :
  splitlines_from cur (c :: c2 :: s)
  = if is_linebreak c then
      if ((c =? 13) && (c2 =? 10))%N then cur :: splitlines_from [] s
      else cur :: splitlines_from [] (c2 :: s)
    else splitlines_from (cur ++ [c]) (c2 :: s).
Proof. reflexivity. Qed.

Lemma splitlines_join (lines : list pystr) :
  Forall (fun l => l <> [] /\ Forall (fun c => is_linebreak c = false) l)
    lines ->
  splitlines (join_lines lines) = lines.
Proof.
  unfold splitlines. induction lines as [|l lines IH]; intros Hall;
    [reflexivity|].
  inversion Hall as [|? ? [Hne Hl] Hrest]; subst.
  destruct lines as [|l2 lines].
  - cbn [join_lines]. rewrite <- (app_nil_r l) at 1.
    rewrite splitlines_from_segment by exact Hl. cbn.
    destruct l; [congruence|reflexivity].
  - change (join_lines (l :: l2 :: lines))
      with (l ++ 10%N :: join_lines (l2 :: lines))%list.
    rewrite splitlines_from_segment by exact Hl.
    rewrite splitlines_from_newline. cbn [app]. f_equal. apply IH, Hrest.
Qed.

Lemma splitlines_from_no_linebreak s :
  forall cur,
    Forall (fun c => is_linebreak c = false) cur ->
    Forall (Forall (fun c => is_linebreak c = false)) (splitlines_from cur s).
Proof.
  induction s as [|c|c c2 s IH1 IH2] using list_two_step_ind; intros cur Hcur.
  - destruct cur; cbn; solve_Forall.
  - cbn [splitlines_from]. destruct (is_linebreak c) eqn:Hc.
    + cbn. solve_Forall.
    + cbn. destruct (cur ++ [c])%list eqn:E; [solve_Forall|].
      rewrite <- E. apply List.Forall_cons; [|solve_Forall].
      apply Forall_app. split; solve_Forall.
  - cbn [splitlines_from]. destruct (is_linebreak c) eqn:Hc.
    + destruct ((c =? 13)%N && (c2 =? 10)%N); apply List.Forall_cons;
        try assumption; [apply IH1|apply IH2]; solve_Forall.
    + apply IH2. apply Forall_app. split; solve_Forall.
Qed.

(** ** Stripping *)

Lemma lstrip_suffix s :
  exists spaces,
    s = (spaces ++ lstrip s)%list /\ Forall (fun c => is_space c = true) spaces.
Proof.
  induction s as [|c s (spaces & IH & Hsp)];
    [exists []; split; [reflexivity|constructor]|].
  cbn [lstrip]. destruct (is_space c) eqn:Hc.
  - exists (c :: spaces).
    split; [cbn; f_equal; exact IH|constructor; assumption].
  - exists []. split; [reflexivity|constructor].
Qed.

Lemma lstrip_head s :
  lstrip s = [] \/ exists c rest, lstrip s = c :: rest /\ is_space c = false.
Proof.
  induction s as [|c s IH]; [left; reflexivity|].
  cbn [lstrip]. destruct (is_space c) eqn:Hc; [exact IH|].
  right. eauto.
Qed.

Lemma lstrip_fixed c rest : is_space c = false -> lstrip (c :: rest) = c :: rest.
Proof. intros H. cbn [lstrip]. rewrite H. reflexivity. Qed.

(** [strip] cuts spaces off both ends. *)
Lemma strip_decompose s :
  exists front back,
    s = (front ++ strip s ++ back)%list /\
    Forall (fun c => is_space c = true) front /\
    Forall (fun c => is_space c = true) back.
Proof.
  unfold strip.
  destruct (lstrip_suffix s) as (front & Hs & Hfront).
  destruct (lstrip_suffix (rev (lstrip s))) as (back & Hm & Hback).
  exists front, (rev back). split; [|split; [exact Hfront|]].
  - rewrite <- rev_app_distr, <- Hm, rev_involutive. exact Hs.
  - apply Forall_forall. intros c Hc. rewrite Forall_forall in Hback.
    apply Hback. apply list_elem_of_In. apply in_rev.
    apply list_elem_of_In. exact Hc.
Qed.

Lemma strip_stripped s : stripped (strip s).
Proof.
  destruct (strip s) as [|c0 r0] eqn:Hr; [left; reflexivity|right].
  unfold strip in Hr.
  destruct (lstrip_head (rev (lstrip s))) as [Hnil|(c & x & Hx & Hc)].
  { rewrite Hnil in Hr. discriminate. }
  rewrite Hx in Hr. cbn [rev] in Hr. split.
  - destruct (lstrip_suffix (rev (lstrip s))) as (back & Hm & _).
    rewrite Hx in Hm. apply (f_equal (@rev N)) in Hm.
    rewrite rev_involutive, rev_app_distr in Hm. cbn [rev] in Hm.
    rewrite Hr in Hm.
    destruct (lstrip_head s) as [Hnil|(c1 & y & Hy & Hc1)].
    + rewrite Hnil in Hm. discriminate.
    + rewrite Hy in Hm. cbn in Hm. injection Hm as -> _.
      exists c0, r0. split; [reflexivity|exact Hc1].
  - exists (rev x), c. split; [symmetry; exact Hr|exact Hc].
Qed.

Lemma stripped_strip s : stripped s -> strip s = s.
Proof.
  intros [->|[(c & rest & Hs & Hc) (front & d & Hs' & Hd)]]; [reflexivity|].
  unfold strip. rewrite Hs at 1. rewrite lstrip_fixed by exact Hc.
  rewrite <- Hs. rewrite Hs' at 1. rewrite rev_app_distr. cbn [rev app].
  rewrite lstrip_fixed by exact Hd.
  change (d :: rev front) with (rev [d] ++ rev front)%list.
  rewrite <- rev_app_distr, rev_involutive. symmetry. exact Hs'.
Qed.

Lemma strip_Forall (P : N -> Prop) s : Forall P s -> Forall P (strip s).
Proof.
  intros H. destruct (strip_decompose s) as (front & back & Hs & _ & _).
  rewrite Hs in H. apply Forall_app in H as [_ H].
  apply Forall_app in H as [H _]. exact H.
Qed.

Lemma strip_length s : (length (strip s) <= length s)%nat.
Proof.
  destruct (strip_decompose s) as (front & back & Hs & _ & _).
  rewrite Hs at 2. rewrite !length_app. lia.
Qed.

(** ** Kept lines *)

Lemma keep_line_Some line k :
  keep_line line = Some k ->
  k = strip line /\ (20 <= length k)%nat /\
  Forall (fun phrase => contains phrase (lower k) = false) ad_phrases.
Proof.
  unfold textAnalyzer.keep_line.
  destruct (length (strip line) <? 20)%nat eqn:Hlen; [discriminate|].
  destruct (existsb _ ad_phrases) eqn:Hads; [discriminate|].
  intros [= <-]. split; [reflexivity|]. split.
  - apply Nat.ltb_ge in Hlen. exact Hlen.
  - apply Forall_forall. intros phrase Hin.
    destruct (contains phrase (lower (strip line))) eqn:Hc; [|reflexivity].
    assert (Hex : existsb (fun phrase => contains phrase (lower (strip line)))
                    ad_phrases = true).
    { apply existsb_exists. exists phrase. split; [|exact Hc].
      apply list_elem_of_In. exact Hin. }
    congruence.
Qed.

Lemma keep_line_fixed line k : keep_line line = Some k -> keep_line k = Some k.
Proof.
  intros Hk. pose proof Hk as Hk'. apply keep_line_Some in Hk' as (-> & _ & _).
  unfold textAnalyzer.keep_line in *.
  rewrite (stripped_strip (strip line)) by apply strip_stripped.
  exact Hk.
Qed.

Lemma omap_fixed {A} (f : A -> option A) (l : list A) :
  Forall (fun x => f x = Some x) l -> omap f l = l.
Proof.
  induction 1 as [|x l Hx _ IH]; [reflexivity|].
  cbn [omap list_omap]. rewrite Hx. cbn. f_equal. exact IH.
Qed.

(** The lines [clean_text] keeps. *)
Lemma kept_lines t :
  Forall (fun k =>
            k <> [] /\ Forall (fun c => is_linebreak c = false) k /\
            keep_line k = Some k /\
            exists line, line ∈ splitlines t /\ keep_line line = Some k)
    (omap keep_line (splitlines t)).
Proof.
  apply Forall_forall. intros k Hk.
  apply list_elem_of_omap in Hk as (line & Hline & Hkeep).
  pose proof (keep_line_Some _ _ Hkeep) as (Hstrip & Hlen & _).
  split; [intros ->; cbn in Hlen; lia|]. split; [|split].
  - rewrite Hstrip. apply strip_Forall.
    pose proof (splitlines_from_no_linebreak t [] (List.Forall_nil _)) as Hall.
    rewrite Forall_forall in Hall. apply Hall. exact Hline.
  - eapply keep_line_fixed, Hkeep.
  - exists line. split; assumption.
Qed.


(** X21.  Cleaning a cleaned text changes nothing. *)
Theorem clean_text_idempotent t : clean_text (clean_text t) = clean_text t.
Proof.
  unfold textAnalyzer.clean_text at 1 3.
  pose proof (kept_lines t) as Hkept.
  unfold textAnalyzer.clean_text.
  rewrite splitlines_join.
  2: { eapply Forall_impl; [exact Hkept|]. cbv beta. intros k (? & ? & _). auto. }
  rewrite omap_fixed; [reflexivity|].
  eapply Forall_impl; [exact Hkept|]. cbv beta. intros k (_ & _ & ? & _). auto.
Qed.

(** ** Lengths *)

Lemma join_lines_length_cons l ls :
  (length l <= length (join_lines (l :: ls)) /\
   length (join_lines (l :: ls)) <= length l + 1 + length (join_lines ls))%nat.
Proof.
  destruct ls as [|l2 ls]; [cbn; lia|].
  change (join_lines (l :: l2 :: ls))
    with (l ++ 10%N :: join_lines (l2 :: ls))%list.
  rewrite length_app. cbn [length]. lia.
Qed.

Lemma keep_line_length line k :
  keep_line line = Some k -> (length k <= length line)%nat.
Proof.
  intros (-> & _ & _)%keep_line_Some. apply strip_length.
Qed.

Lemma kept_head_length cur ls :
  (length (join_lines (omap keep_line (cur :: ls)))
   <= length cur + 1 + length (join_lines (omap keep_line ls)))%nat.
Proof.
  cbn [omap list_omap].
  destruct (keep_line cur) as [k|] eqn:Hk; cbn [omap list_omap]; [|lia].
  apply keep_line_length in Hk.
  pose proof (join_lines_length_cons k (omap keep_line ls)). lia.
Qed.

Lemma kept_last_length cur :
  (length (join_lines
             (omap keep_line match cur with [] => [] | _ :: _ => [cur] end))
   <= length cur)%nat.
Proof.
  destruct cur as [|c cur]; [cbn; lia|].
  cbn [omap list_omap].
  destruct (keep_line (c :: cur)) as [k|] eqn:Hk; cbn [omap list_omap].
  - apply keep_line_length in Hk. cbn [join_lines]. exact Hk.
  - cbn. lia.
Qed.

Lemma kept_length s :
  forall cur,
    (length (join_lines (omap keep_line (splitlines_from cur s)))
     <= length cur + length s)%nat.
Proof.
  induction s as [|c|c c2 s IH1 IH2] using list_two_step_ind; intros cur.
  - cbn [splitlines_from]. pose proof (kept_last_length cur). lia.
  - cbn [splitlines_from]. destruct (is_linebreak c).
    + pose proof (kept_head_length cur []) as H.
      change (length (join_lines (omap keep_line []))) with 0%nat in H.
      cbn [length]. lia.
    + pose proof (kept_last_length (cur ++ [c])) as H.
      rewrite length_app in H. cbn [length] in *. lia.
  - rewrite splitlines_from_two. destruct (is_linebreak c).
    + destruct ((c =? 13)%N && (c2 =? 10)%N).
      * eapply Nat.le_trans; [apply kept_head_length|].
        specialize (IH1 []). cbn [length] in *. lia.
      * eapply Nat.le_trans; [apply kept_head_length|].
        specialize (IH2 []). cbn [length] in *. lia.
    + specialize (IH2 (cur ++ [c])%list). rewrite length_app in IH2.
      cbn [length] in *. lia.
Qed.

(** X22.  Cleaning never makes a text longer, and a text of fewer than
    20 characters is cleaned to the empty text. *)
Theorem clean_text_shorter t :
  (length (clean_text t) <= length t)%nat /\
  ((length t < 20)%nat -> clean_text t = []).
Proof.
  assert (Hlen : (length (clean_text t) <= length t)%nat).
  { unfold textAnalyzer.clean_text, splitlines.
    pose proof (kept_length t []) as H. cbn [length] in H. lia. }
  split; [exact Hlen|]. intros Hshort.
  unfold textAnalyzer.clean_text in *.
  pose proof (kept_lines t) as Hkept.
  destruct (omap keep_line (splitlines t)) as [|k ks]; [reflexivity|].
  exfalso. inversion Hkept as [|? ? (_ & _ & Hk & _) _]; subst.
  apply keep_line_Some in Hk as (_ & Hk20 & _).
  pose proof (join_lines_length_cons k ks). lia.
Qed.

End CleanFacts.

Section TextRuns.

Import textAnalyzer scenario.

Local Open Scope Q_scope.

Example add_sentiment_run :
  add_sentiment_to_articles keep_text word_scores loaded_articles
  = Some annotated_articles.
Proof. vm_compute. reflexivity. Qed.

Lemma add_sentiment_to_articles_again_witness :
  add_sentiment_to_articles keep_text word_scores annotated_articles
  = Some annotated_articles.
Proof.
  apply (add_sentiment_to_articles_again keep_text word_scores
           loaded_articles annotated_articles).
  vm_compute. reflexivity.
Defined.

Lemma add_sentiment_to_articles_result_witness :
  length annotated_articles = length loaded_articles /\
  forall i a,
    loaded_articles !! i = Some a ->
    exists a' text,
      annotated_articles !! i = Some a' /\
      article_text_value a = VText text /\
      delete "sentiment_scores" (delete "sentiment" a')
      = delete "sentiment_scores" (delete "sentiment" a) /\
      a' !! "sentiment_scores" = Some (VScores (word_scores (keep_text text))) /\
      exists label,
        a' !! "sentiment" = Some (VText label) /\
        let c := compound (word_scores (keep_text text)) in
        (1 # 100 <= c -> label = "Positive") /\
        (0 < c -> c < 1 # 100 -> label = "Neutral") /\
        (c < 0 -> label = "Negative").
Proof.
  apply (add_sentiment_to_articles_result keep_text word_scores
           loaded_articles annotated_articles).
  vm_compute. reflexivity.
Defined.

(** The ad and the short line go, the two sentences stay, stripped and
    joined by a line feed. *)
Example clean_text_run :
  clean_text ascii_lower page_text
  = (codepoints "Apple shares rose sharply on Monday."
     ++ [10%N]
     ++ codepoints "The company reported record revenue.")%list.
Proof. vm_compute. reflexivity. Qed.

Example splitlines_run :
  splitlines (codepoints "a" ++ [13; 10; 10]%N ++ codepoints "b" ++ [8232%N])
  = [codepoints "a"; []; codepoints "b"].
Proof. vm_compute. reflexivity. Qed.

End TextRuns.
